(** * The compress post-processor (post-processor/compress/post-processor.go)

    A shallow embedding of the filename classifier [detectFromFilename], of the
    level normalisation done by [Configure], of the five writer factories and
    of [PostProcess] with the archive writers it calls, followed by the
    properties of the specification that were checked against them.

    Go strings are byte sequences and are modelled by [string]; Go's [int] is
    modelled by [Z] (levels are only compared, never computed with); the
    [map[string]string] of known extensions is a [gmap string string]. *)

From Stdlib Require Import ZArith Ascii String DecimalString.
From stdpp Require Import base option list strings gmap.

Local Open Scope Z_scope.
Local Open Scope string_scope.
Local Open Scope list_scope.

(** ** Strings and formatting *)

Module Fmt.

(** The operands the source hands to [fmt.Sprintf] and [fmt.Errorf]: strings
    (errors are formatted with [%s], that is by their message), ints and one
    slice of strings. *)
Inductive arg :=
| Str (s : string)
| Int (n : Z)
| Strs (l : list string).

(** Decimal rendering of an int, as the verb [%d] prints it. *)
Definition itoa (n : Z) : string := NilZero.string_of_int (Z.to_int n).

(** [strings.Join]. *)
Fixpoint join (sep : string) (l : list string) : string :=
  match l with
  | [] => ""
  | [x] => x
  | x :: rest => x +:+ sep +:+ join sep rest
  end.

(** One operand printed by a verb.  Every call site of the source uses the verb
    that fits its operand ([%s] with a string or an error, [%d] with an int,
    [%v] with the slice), so the rendering is chosen by the operand. *)
Definition formatArg (a : arg) : string :=
  match a with
  | Str s => s
  | Int n => itoa n
  | Strs l => "[" +:+ join " " l +:+ "]"
  end.

(** [fmt.Sprintf]: every [%x] consumes the next operand; an operand that is
    missing is reported the way Go does. *)
Fixpoint Sprintf (format : string) (args : list arg) : string :=
  match format with
  | EmptyString => ""
  | String "%" (String verb rest) =>
      match args with
      | a :: args' => formatArg a +:+ Sprintf rest args'
      | [] => "%!" +:+ String verb "(MISSING)" +:+ Sprintf rest []
      end
  | String c rest => String c (Sprintf rest args)
  end.

End Fmt.
Export Fmt.

(** ** The pattern [filenamePattern] *)

Module Regexp.

(** The character class [[a-z0-9]]. *)
Definition is_lower_alnum (c : ascii) : bool :=
  let n := nat_of_ascii c in
  (((97 <=? n) && (n <=? 122)) || ((48 <=? n) && (n <=? 57)))%nat.

(** What the scanner has in hand: [None] outside a candidate match, [Some tok]
    once a dot has been read, [tok] being the run of [[a-z0-9]] read after it. *)
Definition flush (cur : option string) : list string :=
  match cur with
  | Some (String c tok) => [String c tok]
  | _ => []
  end.

Definition after (c : ascii) : option string :=
  if Ascii.eqb c "." then Some "" else None.

(** The successive leftmost, non-overlapping matches of [\.([a-z0-9]+)] in [s],
    each given by its capture group.  The run after a dot is taken greedily; a
    dot followed by no character of the class matches nothing and the search
    resumes at the next character. *)
Fixpoint scan (cur : option string) (s : string) : list string :=
  match s with
  | EmptyString => flush cur
  | String c rest =>
      match cur with
      | Some tok =>
          if is_lower_alnum c then scan (Some (tok +:+ String c "")) rest
          else flush cur ++ scan (after c) rest
      | None => scan (after c) rest
      end
  end.

(** [filenamePattern.FindAllStringSubmatch(s, -1)]: one slice per match, holding
    the whole match and the capture group. *)
Definition FindAllStringSubmatch (s : string) : list (list string) :=
  (fun tok => ["." +:+ tok; tok]) <$> scan None s.

(** [result[i][j]]; the source only reads positions that exist. *)
Definition at2 (result : list (list string)) (i j : nat) : string :=
  default "" (default [] (result !! i) !! j).

End Regexp.
Export Regexp.

(** ** Configuration *)

Record Config := mkConfig {
  PackerBuildName : string;
  PackerBuilderType : string;
  OutputPath : string;
  Format : string;
  CompressionLevel : Z;
  Archive : string;
  Algorithm : string
}.

Definition setOutputPath (v : string) (c : Config) : Config :=
  mkConfig (PackerBuildName c) (PackerBuilderType c) v (Format c)
           (CompressionLevel c) (Archive c) (Algorithm c).

Definition setFormat (v : string) (c : Config) : Config :=
  mkConfig (PackerBuildName c) (PackerBuilderType c) (OutputPath c) v
           (CompressionLevel c) (Archive c) (Algorithm c).

Definition setCompressionLevel (v : Z) (c : Config) : Config :=
  mkConfig (PackerBuildName c) (PackerBuilderType c) (OutputPath c) (Format c)
           v (Archive c) (Algorithm c).

Definition setArchive (v : string) (c : Config) : Config :=
  mkConfig (PackerBuildName c) (PackerBuilderType c) (OutputPath c) (Format c)
           (CompressionLevel c) v (Algorithm c).

Definition setAlgorithm (v : string) (c : Config) : Config :=
  mkConfig (PackerBuildName c) (PackerBuilderType c) (OutputPath c) (Format c)
           (CompressionLevel c) (Archive c) v.

(** The zero value of [Config], but for the two path settings. *)
Definition newConfig (output format : string) : Config :=
  mkConfig "" "" output format 0 "" "".

(** ** The filename classifier *)

Definition extensions : gmap string string :=
  list_to_map
    [("tar", "tar"); ("zip", "zip"); ("gz", "pgzip"); ("lz4", "lz4");
     ("bgzf", "bgzf"); ("xz", "xz"); ("bzip2", "bzip2")].

(** The string the pattern is run on (lines 266-270). *)
Definition scanned (config : Config) : string :=
  if String.eqb (Format config) "" then OutputPath config
  else Sprintf "%s.%s" [Str (OutputPath config); Str (Format config)].

(** Lines 272-309, on the matches already found. *)
Definition detectFrom (result : list (list string)) (config : Config) : Config :=
  if (length result =? 0)%nat then
    setArchive "tar" (setAlgorithm "pgzip" config)
  else
    let lastItem := at2 result (length result - 1) 1 in
    let nextToLastItem :=
      if (length result =? 1)%nat then "" else at2 result (length result - 2) 1 in
    let config :=
      if String.eqb nextToLastItem "tar" then setArchive "tar" config else config in
    if String.eqb lastItem "zip" || String.eqb lastItem "tar" then
      setArchive lastItem config
    else
      match extensions !! lastItem with
      | Some algorithm => setAlgorithm algorithm config
      | None => setArchive "tar" (setAlgorithm "pgzip" config)
      end.

Definition detectFromFilename (config : Config) : Config :=
  detectFrom (FindAllStringSubmatch (scanned config)) config.

(** Whether a name holds a dot at all. *)
Fixpoint hasDot (s : string) : bool :=
  match s with
  | EmptyString => false
  | String c rest => Ascii.eqb c "." || hasDot rest
  end.

(** The pair the specification calls (archive kind, compression kind); the
    empty string is its "none". *)
Definition kinds (config : Config) : string * string :=
  (Archive config, Algorithm config).

Definition classify (output format : string) : string * string :=
  kinds (detectFromFilename (newConfig output format)).


(** ** Errors

    A Go error is compared by identity.  The two package-level values are
    constructors of their own, so that an error built on the spot by
    [fmt.Errorf] is never equal to one of them, whatever its message. *)

#[warnings="-register-all"]
Inductive error :=
| ErrInvalidCompressionLevel
| ErrWrongInputCount
| Errorf (format : string) (args : list arg)
| External (msg : string)
| MultiError (Errors : list error).

(** The method [Error()].  [External] is an error value handed back by a
    library or by the operating system; [MultiError] is the SDK's list of
    errors, printed as a count and one bullet per error. *)
Fixpoint Error (e : error) : string :=
  match e with
  | ErrInvalidCompressionLevel =>
      "Invalid compression level. Expected an integer from -1 to 9."
  | ErrWrongInputCount => "Can only have 1 input file when not using tar/zip"
  | Errorf format args => Sprintf format args
  | External msg => msg
  | MultiError errs =>
      let nl := String (ascii_of_nat 10) "" in
      itoa (Z.of_nat (length errs)) +:+ " error(s) occurred:" +:+ nl +:+ nl
      +:+ join nl ((fun e => "* " +:+ Error e) <$> errs)
  end.

Inductive result (A : Type) :=
| Ok (a : A)
| Err (e : error).
Arguments Ok {A} a.
Arguments Err {A} e.

(** ** Writers, effects and the environment *)

(** A writer is described by how it was built. *)
Inductive writer :=
| File (name : string)
| BgzfWriter (output : writer) (level wc : Z)
| Bzip2Writer (output : writer) (Level : Z)
| Lz4Writer (output : writer) (HeaderCompressionLevel : Z)
| XzWriter (output : writer)
| PgzipWriter (output : writer) (level blockSize blocks : Z)
| TarWriter (output : writer)
| ZipWriter (output : writer)
| ZipEntry (archive : writer) (name : string).

(** What a run does to the outside world, in the order it does it.  Only calls
    that succeeded are recorded. *)
Inductive event :=
| Println (s : string)
| Say (message : string)
| MkdirAll (path : string) (perm : Z)
| Create (name : string)
| NewWriter (w : writer)
| Open (name : string)
| Stat (name : string)
| WriteHeader (archive : writer) (name : string)
| Copy (dst : writer) (src : string)
| Close (w : writer)
| CloseFile (name : string).

Definition trace := list event.

(** The libraries and the operating system the source calls.  A fallible call
    answers [Some err] when it fails; its answer may depend on everything that
    happened before.  [GOMAXPROCS] is what [runtime.GOMAXPROCS(-1)] reports
    during the run. *)
Record Env := mkEnv {
  GOMAXPROCS : Z;
  filepath_Dir : string -> string;
  filepath_ToSlash : string -> string;
  interpolate_Validate : string -> option error;
  interpolate_Render : string -> gmap string string -> result string;
  os_MkdirAll : trace -> string -> option error;
  os_Create : trace -> string -> option error;
  os_Open : trace -> string -> option error;
  file_Stat : trace -> string -> option error;
  tar_FileInfoHeader : trace -> string -> option error;
  tar_WriteHeader : trace -> writer -> string -> option error;
  zip_Create : trace -> writer -> string -> option error;
  io_Copy : trace -> writer -> string -> option error;
  bgzf_NewWriterLevel : trace -> writer -> Z -> Z -> option error;
  bzip2_NewWriter : trace -> writer -> Z -> option error;
  xz_NewWriter : trace -> writer -> option error;
  pgzip_NewWriterLevel : trace -> writer -> Z -> option error
}.

(** The constants of klauspost/pgzip that [Configure] reads. *)
Definition pgzip_BestCompression : Z := 9.
Definition pgzip_DefaultCompression : Z := -1.

(** *** A state and error monad over the trace *)

Definition M (A : Type) : Type := trace -> result A * trace.

Global Instance M_ret : MRet M := fun A a t => (Ok a, t).

Global Instance M_bind : MBind M := fun A B f m t =>
  match m t with
  | (Ok a, t') => f a t'
  | (Err e, t') => (Err e, t')
  end.

Definition fail {A} (e : error) : M A := fun t => (Err e, t).

Definition emit (ev : event) : M unit := fun t => (Ok (), t ++ [ev]).

(** A fallible external call: on success its effect joins the trace. *)
Definition call (outcome : trace -> option error) (ev : event) : M unit :=
  fun t =>
    match outcome t with
    | Some err => (Err err, t)
    | None => (Ok (), t ++ [ev])
    end.

(** A fallible external call that leaves no effect behind. *)
Definition check (outcome : trace -> option error) : M unit :=
  fun t =>
    match outcome t with
    | Some err => (Err err, t)
    | None => (Ok (), t)
    end.

(** [if err != nil { return ..., wrap(err) }]. *)
Definition orElse {A} (m : M A) (wrap : error -> error) : M A :=
  fun t =>
    match m t with
    | (Err err, t') => (Err (wrap err), t')
    | r => r
    end.

(** [defer]: the deferred call runs when the enclosing function returns, on
    every path, after the calls deferred later in [body]. *)
Definition defer {A} (ev : event) (body : M A) : M A :=
  fun t => let '(r, t') := body t in (r, t' ++ [ev]).

(** ** The writer factories *)

Definition makeBGZFWriter (E : Env) (output : writer) (compressionLevel : Z)
  : M writer :=
  let bgzfWriter := BgzfWriter output compressionLevel (GOMAXPROCS E) in
  orElse
    (call (fun t => bgzf_NewWriterLevel E t output compressionLevel (GOMAXPROCS E))
          (NewWriter bgzfWriter))
    (fun _ => ErrInvalidCompressionLevel);;
  mret bgzfWriter.

(** The field [Level] of the [bzip2.WriterConfig] built by [makeBZIP2Writer]. *)
Definition bzipCFG_Level (compressionLevel : Z) : Z :=
  let Level := 9 in
  if compressionLevel >? 0 then compressionLevel else Level.

Definition makeBZIP2Writer (E : Env) (output : writer) (compressionLevel : Z)
  : M writer :=
  let bzipWriter := Bzip2Writer output (bzipCFG_Level compressionLevel) in
  call (fun t => bzip2_NewWriter E t output (bzipCFG_Level compressionLevel))
       (NewWriter bzipWriter);;
  mret bzipWriter.

Definition makeLZ4Writer (E : Env) (output : writer) (compressionLevel : Z)
  : M writer :=
  let lzwriter :=
    Lz4Writer output (if compressionLevel >? 0 then compressionLevel else 0) in
  emit (NewWriter lzwriter);;
  mret lzwriter.

Definition makeXZWriter (E : Env) (output : writer) : M writer :=
  let xzwriter := XzWriter output in
  call (fun t => xz_NewWriter E t output) (NewWriter xzwriter);;
  mret xzwriter.

Definition makePgzipWriter (E : Env) (output : writer) (compressionLevel : Z)
  : M writer :=
  let gzipWriter := PgzipWriter output compressionLevel 500000 (GOMAXPROCS E) in
  orElse
    (call (fun t => pgzip_NewWriterLevel E t output compressionLevel)
          (NewWriter gzipWriter))
    (fun _ => ErrInvalidCompressionLevel);;
  mret gzipWriter.

(** ** Configure *)

(** Lines 88-96. *)
Definition normalizeLevel (config : Config) : Config :=
  let config :=
    if CompressionLevel config >? pgzip_BestCompression
    then setCompressionLevel pgzip_BestCompression config else config in
  if ((CompressionLevel config =? -1) || (CompressionLevel config =? 0))%Z
  then setCompressionLevel pgzip_DefaultCompression config else config.

(** [Configure], given what [config.Decode] made of the raw settings: the
    configuration it left in the post-processor and its error, if any.  The
    result is the configuration held afterwards and the error returned. *)
Definition Configure (E : Env) (decoded : Config * option error)
  : Config * option error :=
  match decoded with
  | (config, Some err) => (config, Some err)
  | (config, None) =>
      let errs : list error := [] in
      let config :=
        if String.eqb (OutputPath config) ""
        then setOutputPath "packer_{{.BuildName}}_{{.BuilderType}}" config
        else config in
      let config := normalizeLevel config in
      let errs :=
        match interpolate_Validate E (OutputPath config) with
        | Some err =>
            errs ++ [Errorf "Error parsing target template: %s" [Str (Error err)]]
        | None => errs
        end in
      let config := detectFromFilename config in
      if (0 <? length errs)%nat then (config, Some (MultiError errs))
      else (config, None)
  end.

(** ** The archive writers *)

Fixpoint tarFiles (E : Env) (archive : writer) (files : list string) : M unit :=
  match files with
  | [] => mret ()
  | path :: rest =>
      orElse (call (fun t => os_Open E t path) (Open path))
        (fun err => Errorf "Unable to read file %s: %s" [Str path; Str (Error err)]);;
      defer (CloseFile path)
        (orElse (call (fun t => file_Stat E t path) (Stat path))
           (fun err =>
              Errorf "Unable to get fileinfo for %s: %s" [Str path; Str (Error err)]);;
         orElse (check (fun t => tar_FileInfoHeader E t path))
           (fun err =>
              Errorf "Failed to create tar header for %s: %s"
                [Str path; Str (Error err)]);;
         orElse (call (fun t => tar_WriteHeader E t archive path)
                      (WriteHeader archive path))
           (fun err =>
              Errorf "Failed to write tar header for %s: %s"
                [Str path; Str (Error err)]);;
         orElse (call (fun t => io_Copy E t archive path) (Copy archive path))
           (fun err =>
              Errorf "Failed to copy %s data to archive: %s"
                [Str path; Str (Error err)]);;
         tarFiles E archive rest)
  end.

(** [createTarArchive].  The files opened by the loop are closed when the
    function returns, last opened first, and the archive after them.  The
    header tweak [setHeaderFormat] changes no file and raises no error. *)
Definition createTarArchive (E : Env) (files : list string) (output : writer)
  : M unit :=
  let archive := TarWriter output in
  emit (NewWriter archive);;
  defer (Close archive) (tarFiles E archive files).

Fixpoint zipFiles (E : Env) (archive : writer) (files : list string) : M unit :=
  match files with
  | [] => mret ()
  | path :: rest =>
      let path := filepath_ToSlash E path in
      orElse (call (fun t => os_Open E t path) (Open path))
        (fun err => Errorf "Unable to read file %s: %s" [Str path; Str (Error err)]);;
      defer (CloseFile path)
        (let target := ZipEntry archive path in
         orElse (call (fun t => zip_Create E t archive path) (NewWriter target))
           (fun err =>
              Errorf "Failed to add zip header for %s: %s"
                [Str path; Str (Error err)]);;
         orElse (call (fun t => io_Copy E t target path) (Copy target path))
           (fun err =>
              Errorf "Failed to copy %s data to archive: %s"
                [Str path; Str (Error err)]);;
         zipFiles E archive rest)
  end.

Definition createZipArchive (E : Env) (files : list string) (output : writer)
  : M unit :=
  let archive := ZipWriter output in
  emit (NewWriter archive);;
  defer (Close archive) (zipFiles E archive files).

(** ** PostProcess *)

(** What [PostProcess] reads of the artifact it is given: its files and its
    state under the key [generated_data]. *)
Record SourceArtifact := mkSource {
  Files : list string;
  generated_data : option (gmap string string)
}.

Record Artifact := mkArtifact { Path : string }.

(** The message of the error returned when there is no archive to build and
    the artifact does not hold exactly one file (lines 227-229). *)
Definition wrongInputCount (files : list string) : error :=
  Errorf "Can only have 1 input file when not using tar/zip. Found %d files: %v"
    [Int (Z.of_nat (length files)); Strs files].

Definition errTmpl : string := "error creating %s writer: %s".

(** One case of the switch on the algorithm: announce, build the writer, defer
    its closing, go on with it. *)
Definition withWriter {A} (p : Config) (message : string) (make : M writer)
    (rest : writer -> M A) : M A :=
  emit (Say message);;
  output ← orElse make
             (fun err => Errorf errTmpl [Str (Algorithm p); Str (Error err)]);
  defer (Close output) (rest output).

(** Lines 156-202: the output is a compression writer over the file, or the
    file itself. *)
Definition withOutput {A} (E : Env) (p : Config) (target : string)
    (outputFile : writer) (rest : writer -> M A) : M A :=
  if String.eqb (Algorithm p) "bgzf" then
    withWriter p
      (Sprintf "Using bgzf compression with %d cores for %s"
         [Int (GOMAXPROCS E); Str target])
      (makeBGZFWriter E outputFile (CompressionLevel p)) rest
  else if String.eqb (Algorithm p) "bzip2" then
    withWriter p
      (Sprintf "Using bzip2 compression with 1 core for %s (library does not support MT)"
         [Str target])
      (makeBZIP2Writer E outputFile (CompressionLevel p)) rest
  else if String.eqb (Algorithm p) "lz4" then
    withWriter p
      (Sprintf "Using lz4 compression with %d cores for %s"
         [Int (GOMAXPROCS E); Str target])
      (makeLZ4Writer E outputFile (CompressionLevel p)) rest
  else if String.eqb (Algorithm p) "xz" then
    withWriter p
      (Sprintf "Using xz compression with 1 core for %s (library does not support MT)"
         [Str target])
      (makeXZWriter E outputFile) rest
  else if String.eqb (Algorithm p) "pgzip" then
    withWriter p
      (Sprintf "Using pgzip compression with %d cores for %s"
         [Int (GOMAXPROCS E); Str target])
      (makePgzipWriter E outputFile (CompressionLevel p)) rest
  else rest outputFile.

(** Lines 204-250: build the archive or copy the single file, then report.
    [source.Close()] is deferred to the return of [PostProcess], hence runs
    after the last message. *)
Definition writeArchive (E : Env) (p : Config) (artifact : SourceArtifact)
    (target : string) (newArtifact : Artifact) (output : writer) : M Artifact :=
  let compression :=
    if String.eqb (Algorithm p) "" then "no compression" else Algorithm p in
  let done :=
    emit (Say (Sprintf "Archive %s completed" [Str target]));;
    mret newArtifact in
  if String.eqb (Archive p) "tar" then
    emit (Say (Sprintf "Tarring %s with %s" [Str target; Str compression]));;
    orElse (createTarArchive E (Files artifact) output)
      (fun err => Errorf "Error creating tar: %s" [Str (Error err)]);;
    done
  else if String.eqb (Archive p) "zip" then
    emit (Say (Sprintf "Zipping %s" [Str target]));;
    orElse (createZipArchive E (Files artifact) output)
      (fun err => Errorf "Error creating zip: %s" [Str (Error err)]);;
    done
  else
    if negb (length (Files artifact) =? 1)%nat then
      fail (wrongInputCount (Files artifact))
    else
      let archiveFile := default "" (Files artifact !! 0%nat) in
      emit (Say (Sprintf "Archiving %s with %s" [Str archiveFile; Str compression]));;
      orElse (call (fun t => os_Open E t archiveFile) (Open archiveFile))
        (fun err =>
           Errorf "Failed to open source file %s for reading: %s"
             [Str archiveFile; Str (Error err)]);;
      defer (CloseFile archiveFile)
        (orElse (call (fun t => io_Copy E t output archiveFile)
                      (Copy output archiveFile))
           (fun err =>
              Errorf "Failed to compress %s: %s" [Str archiveFile; Str (Error err)]);;
         done).

(** Lines 117-132: the data the output path is rendered with. *)
Definition generatedData (p : Config) (artifact : SourceArtifact)
  : gmap string string :=
  let generatedData : gmap string string :=
    default ∅ (generated_data artifact) in
  let generatedData := <["BuildName" := PackerBuildName p]> generatedData in
  <["BuilderType" := PackerBuilderType p]> generatedData.

(** [PostProcess].  [Ok a] stands for the return [(a, false, false, nil)] and
    [Err err] for [(nil, false, false, err)]. *)
Definition PostProcess (E : Env) (p : Config) (artifact : SourceArtifact)
  : M Artifact :=
  target ← orElse
             (fun t => (interpolate_Render E (OutputPath p)
                          (generatedData p artifact), t))
             (fun err => Errorf "Error interpolating output value: %s" [Str (Error err)]);
  emit (Println target);;
  let newArtifact := mkArtifact target in
  orElse (call (fun t => os_MkdirAll E t (filepath_Dir E target))
               (MkdirAll (filepath_Dir E target) 493))
    (fun err =>
       Errorf "Unable to create dir for archive %s: %s" [Str target; Str (Error err)]);;
  orElse (call (fun t => os_Create E t target) (Create target))
    (fun err =>
       Errorf "Unable to create archive %s: %s" [Str target; Str (Error err)]);;
  let outputFile := File target in
  defer (Close outputFile)
    (withOutput E p target outputFile
       (writeArchive E p artifact target newArtifact)).

(** The whole run, as the plugin host drives it: [Configure], then
    [PostProcess] when [Configure] returned no error. *)
Definition run (E : Env) (decoded : Config * option error)
    (artifact : SourceArtifact) : M Artifact :=
  match Configure E decoded with
  | (p, None) => PostProcess E p artifact
  | (_, Some err) => fail err
  end.

(** ** A sample environment

    Every call to the operating system succeeds; templates render to
    themselves; the gzip family accepts the levels -1 to 9 and bzip2 the levels
    1 to 9; four cores. *)

Definition gzipLevel (level : Z) : option error :=
  if ((level <? -1) || (level >? 9))%Z
  then Some (External "gzip: invalid compression level") else None.

Definition sampleEnv : Env :=
  {| GOMAXPROCS := 4;
     filepath_Dir := fun _ => ".";
     filepath_ToSlash := fun path => path;
     interpolate_Validate := fun _ => None;
     interpolate_Render := fun template _ => Ok template;
     os_MkdirAll := fun _ _ => None;
     os_Create := fun _ _ => None;
     os_Open := fun _ _ => None;
     file_Stat := fun _ _ => None;
     tar_FileInfoHeader := fun _ _ => None;
     tar_WriteHeader := fun _ _ _ => None;
     zip_Create := fun _ _ _ => None;
     io_Copy := fun _ _ _ => None;
     bgzf_NewWriterLevel := fun _ _ level _ => gzipLevel level;
     bzip2_NewWriter := fun _ _ level =>
       if ((level <? 1) || (level >? 9))%Z
       then Some (External "bzip2: invalid compression level") else None;
     xz_NewWriter := fun _ _ => None;
     pgzip_NewWriterLevel := fun _ _ level => gzipLevel level |}.

(** What [config.Decode] leaves for an output name, a format and a level. *)
Definition decodedAs (output format : string) (level : Z)
  : Config * option error :=
  (setCompressionLevel level (newConfig output format), None).


(** The algorithms the switch of [PostProcess] has a case for. *)
Definition knownAlgorithm (p : Config) : bool :=
  String.eqb (Algorithm p) "bgzf" || String.eqb (Algorithm p) "bzip2"
  || String.eqb (Algorithm p) "lz4" || String.eqb (Algorithm p) "xz"
  || String.eqb (Algorithm p) "pgzip".

(** The formats of the errors [PostProcess] returns when it fails before it
    reaches the archive. *)
Definition setupFormats : list string :=
  ["Error interpolating output value: %s";
   "Unable to create dir for archive %s: %s";
   "Unable to create archive %s: %s";
   errTmpl].

(** The events that read an input file. *)
Definition readsInput (ev : event) : bool :=
  match ev with
  | Open _ | Stat _ | Copy _ _ => true
  | _ => false
  end.

(** The level [normalizeLevel] stores for a level [l]. *)
Definition normalLevel (l : Z) : Z :=
  CompressionLevel (normalizeLevel (setCompressionLevel l (newConfig "" ""))).

(** The configuration [Configure] works on once the output path has its
    default. *)
Definition withDefaultOutput (config : Config) : Config :=
  if String.eqb (OutputPath config) ""
  then setOutputPath "packer_{{.BuildName}}_{{.BuilderType}}" config
  else config.

(** The level of a compression writer, when it has one. *)
Definition writerLevel (w : writer) : option Z :=
  match w with
  | BgzfWriter _ level _ => Some level
  | Bzip2Writer _ Level => Some Level
  | Lz4Writer _ level => Some level
  | PgzipWriter _ level _ _ => Some level
  | _ => None
  end.

(** An event that builds no compression writer with a level above 9. *)
Definition levelOk (ev : event) : Prop :=
  match ev with
  | NewWriter w =>
      match writerLevel w with
      | Some level => level <= 9
      | None => True
      end
  | _ => True
  end.

(** [emits P m]: whatever the trace it starts from, [m] only adds events to
    it, and each of them satisfies [P]. *)
Definition emits {A} (P : event -> Prop) (m : M A) : Prop :=
  forall t : trace, exists new : trace, snd (m t) = t ++ new /\ Forall P new.

(** A non-empty run of characters of the class [[a-z0-9]]: what the capture
    group of [filenamePattern] can hold. *)
Fixpoint allLowerAlnum (s : string) : bool :=
  match s with
  | EmptyString => true
  | String c rest => is_lower_alnum c && allLowerAlnum rest
  end.

Definition isToken (s : string) : bool :=
  match s with
  | EmptyString => false
  | String _ _ => allLowerAlnum s
  end.

(** The capture groups found in the string a configuration is scanned by. *)
Definition tokens (config : Config) : list string :=
  scan None (scanned config).

(** The effects of one file archived in full by [createTarArchive]. *)
Definition tarEntry (archive : writer) (path : string) : trace :=
  [Open path; Stat path; WriteHeader archive path; Copy archive path].

(** The effects of one file archived in full by [createZipArchive]. *)
Definition zipEntry (E : Env) (archive : writer) (path : string) : trace :=
  let path := filepath_ToSlash E path in
  [Open path; NewWriter (ZipEntry archive path); Copy (ZipEntry archive path) path].

(** The formats of the errors [createTarArchive] builds. *)
Definition tarFormats : list string :=
  ["Unable to read file %s: %s";
   "Unable to get fileinfo for %s: %s";
   "Failed to create tar header for %s: %s";
   "Failed to write tar header for %s: %s";
   "Failed to copy %s data to archive: %s"].

(** The formats of the errors [createZipArchive] builds. *)
Definition zipFormats : list string :=
  ["Unable to read file %s: %s";
   "Failed to add zip header for %s: %s";
   "Failed to copy %s data to archive: %s"].

(** The sample environment, but for one input file that cannot be opened. *)
Definition sampleEnvWithout (missing : string) : Env :=
  {| GOMAXPROCS := GOMAXPROCS sampleEnv;
     filepath_Dir := filepath_Dir sampleEnv;
     filepath_ToSlash := filepath_ToSlash sampleEnv;
     interpolate_Validate := interpolate_Validate sampleEnv;
     interpolate_Render := interpolate_Render sampleEnv;
     os_MkdirAll := os_MkdirAll sampleEnv;
     os_Create := os_Create sampleEnv;
     os_Open := fun _ name =>
       if String.eqb name missing
       then Some (External "no such file or directory") else None;
     file_Stat := file_Stat sampleEnv;
     tar_FileInfoHeader := tar_FileInfoHeader sampleEnv;
     tar_WriteHeader := tar_WriteHeader sampleEnv;
     zip_Create := zip_Create sampleEnv;
     io_Copy := io_Copy sampleEnv;
     bgzf_NewWriterLevel := bgzf_NewWriterLevel sampleEnv;
     bzip2_NewWriter := bzip2_NewWriter sampleEnv;
     xz_NewWriter := xz_NewWriter sampleEnv;
     pgzip_NewWriterLevel := pgzip_NewWriterLevel sampleEnv |}.

(** [filepath.ToSlash] where the separator is the backslash. *)
Fixpoint backslashToSlash (path : string) : string :=
  match path with
  | EmptyString => ""
  | String c rest =>
      String (if Ascii.eqb c "\" then "/"%char else c) (backslashToSlash rest)
  end.

(** The sample environment, with the backslash as path separator. *)
Definition sampleEnvBackslash : Env :=
  {| GOMAXPROCS := GOMAXPROCS sampleEnv;
     filepath_Dir := filepath_Dir sampleEnv;
     filepath_ToSlash := backslashToSlash;
     interpolate_Validate := interpolate_Validate sampleEnv;
     interpolate_Render := interpolate_Render sampleEnv;
     os_MkdirAll := os_MkdirAll sampleEnv;
     os_Create := os_Create sampleEnv;
     os_Open := os_Open sampleEnv;
     file_Stat := file_Stat sampleEnv;
     tar_FileInfoHeader := tar_FileInfoHeader sampleEnv;
     tar_WriteHeader := tar_WriteHeader sampleEnv;
     zip_Create := zip_Create sampleEnv;
     io_Copy := io_Copy sampleEnv;
     bgzf_NewWriterLevel := bgzf_NewWriterLevel sampleEnv;
     bzip2_NewWriter := bzip2_NewWriter sampleEnv;
     xz_NewWriter := xz_NewWriter sampleEnv;
     pgzip_NewWriterLevel := pgzip_NewWriterLevel sampleEnv |}.

(** The formats of all the errors [PostProcess] builds. *)
Definition postProcessFormats : list string :=
  setupFormats ++
  ["Error creating tar: %s";
   "Error creating zip: %s";
   "Can only have 1 input file when not using tar/zip. Found %d files: %v";
   "Failed to open source file %s for reading: %s";
   "Failed to compress %s: %s"].

(** An error built by [fmt.Errorf] from one of the formats [formats]. *)
Definition formatted (formats : list string) (e : error) : Prop :=
  exists (format : string) (args : list arg),
    e = Errorf format args /\ In format formats.

(** [raises P m]: whenever [m] fails, its error satisfies [P]. *)
Definition raises {A} (P : error -> Prop) (m : M A) : Prop :=
  forall (t : trace) (e : error), fst (m t) = Err e -> P e.

(** *** Files and writers held open

    What is open at some point of a run, the last opened first: writers, and
    input files by name.  The entry writers of a zip archive are not closed on
    their own. *)

Global Instance writer_eq_dec : EqDecision writer.
Proof. solve_decision. Defined.

Definition needsClose (w : writer) : bool :=
  match w with
  | ZipEntry _ _ => false
  | _ => true
  end.

(** One event against what is held open: opening pushes, closing pops what
    was opened last and nothing else. *)
Definition step (held : list (writer + string)) (ev : event)
  : option (list (writer + string)) :=
  match ev with
  | Create name => Some (inl (File name) :: held)
  | NewWriter w => Some (if needsClose w then inl w :: held else held)
  | Open name => Some (inr name :: held)
  | Close w =>
      match held with
      | inl w' :: held' => if decide (w = w') then Some held' else None
      | _ => None
      end
  | CloseFile name =>
      match held with
      | inr name' :: held' => if decide (name = name') then Some held' else None
      | _ => None
      end
  | _ => Some held
  end.

Fixpoint runStack (held : list (writer + string)) (events : trace)
  : option (list (writer + string)) :=
  match events with
  | [] => Some held
  | ev :: rest =>
      match step held ev with
      | Some held' => runStack held' rest
      | None => None
      end
  end.

(** [bracketed m]: [m] only adds events to the trace, and they close, last
    opened first, exactly what they open. *)
Definition bracketed {A} (m : M A) : Prop :=
  forall t : trace,
    exists new : trace,
      snd (m t) = t ++ new /\
      forall held : list (writer + string), runStack held new = Some held.

(** [ensures Q m]: whenever [m] succeeds, it has only added events to the
    trace, and its result and these events satisfy [Q]. *)
Definition ensures {A} (Q : A -> trace -> Prop) (m : M A) : Prop :=
  forall (t : trace) (a : A) (t' : trace),
    m t = (Ok a, t') -> exists new : trace, t' = t ++ new /\ Q a new.

(** What a successful archive stage leaves: the artifact it was given and the
    closing message. *)
Definition completed (target : string) (newArtifact : Artifact)
    (a : Artifact) (new : trace) : Prop :=
  a = newArtifact /\ In (Say (Sprintf "Archive %s completed" [Str target])) new.

(** The name [PostProcess] gives the compression in its messages. *)
Definition compressionName (p : Config) : string :=
  if String.eqb (Algorithm p) "" then "no compression" else Algorithm p.

(** The effects of the copy of the single file [f] into [output], when there
    is no archive to build. *)
Definition singleCopy (p : Config) (target f : string) (output : writer) : trace :=
  [Say (Sprintf "Archiving %s with %s" [Str f; Str (compressionName p)]);
   Open f; Copy output f;
   Say (Sprintf "Archive %s completed" [Str target]);
   CloseFile f].

(** The formats of the errors [PostProcess] can build when there is an
    archive to build. *)
Definition archiveFormats : list string :=
  setupFormats ++ ["Error creating tar: %s"; "Error creating zip: %s"].

(** An event that opens and closes nothing. *)
Definition neutral (ev : event) : Prop :=
  forall held : list (writer + string), step held ev = Some held.

(** A factory either fails without effect or builds one writer that is to be
    closed. *)
Definition builds (make : M writer) : Prop :=
  forall t : trace,
    (exists e, make t = (Err e, t)) \/
    (exists w, make t = (Ok w, t ++ [NewWriter w]) /\ needsClose w = true).

(** * Properties *)

(** ** The scanner *)

(** A dot closes the match in progress and opens a candidate one. *)
Lemma scan_dot (cur : option string) (q : string) :
  scan cur (String "." q) = flush cur ++ scan (Some "") q.
Proof. destruct cur as [tok|]; reflexivity. Qed.

(** A dot in the middle of a name splits its scan in two. *)
Lemma scan_app_dot (p q : string) :
  forall cur, scan cur (p +:+ String "." q) = scan cur p ++ scan (Some "") q.
Proof.
  induction p as [|c p IH]; intros cur.
  - apply scan_dot.
  - change (String c p +:+ String "." q) with (String c (p +:+ String "." q)).
    destruct cur as [tok|]; simpl.
    + destruct (is_lower_alnum c).
      * apply IH.
      * rewrite IH. apply app_assoc.
    + apply IH.
Qed.

(** Without a dot there is nothing to match. *)
Lemma scan_no_dot (s : string) : hasDot s = false -> scan None s = [].
Proof.
  induction s as [|c s IH]; [reflexivity|]. cbn [hasDot scan]. unfold after.
  destruct (Ascii.eqb c "."); [discriminate | exact IH].
Qed.

Lemma FindAll_length (s : string) :
  length (FindAllStringSubmatch s) = length (scan None s).
Proof. unfold FindAllStringSubmatch. apply length_fmap. Qed.

(** The capture group of the [i]-th match. *)
Lemma FindAll_group (s : string) (i : nat) (tok : string) :
  scan None s !! i = Some tok -> at2 (FindAllStringSubmatch s) i 1 = tok.
Proof.
  intros H. unfold at2, FindAllStringSubmatch.
  rewrite list_lookup_fmap, H. reflexivity.
Qed.

Lemma FindAll_last (s tok : string) :
  last (scan None s) = Some tok ->
  (length (FindAllStringSubmatch s) =? 0)%nat = false /\
  at2 (FindAllStringSubmatch s) (length (FindAllStringSubmatch s) - 1) 1 = tok.
Proof.
  intros H. rewrite FindAll_length. rewrite last_lookup in H.
  split.
  - destruct (scan None s); [discriminate | reflexivity].
  - apply FindAll_group. rewrite <- H. f_equal. lia.
Qed.

(** ** The classifier *)

Lemma append_empty_r (s : string) : s +:+ "" = s.
Proof.
  induction s as [|c s IH]; [reflexivity|].
  change (String c s +:+ "") with (String c (s +:+ "")). now rewrite IH.
Qed.

Lemma Sprintf_dot (a b : string) :
  Sprintf "%s.%s" [Str a; Str b] = a +:+ "." +:+ b.
Proof. cbn. rewrite append_empty_r. reflexivity. Qed.

Lemma String_eqb_empty (s : string) :
  String.eqb s "" = false <-> s <> "".
Proof. rewrite <- String.eqb_neq. reflexivity. Qed.

(** C1: the classifier maps "x.tar" to (tar, none), "x.tar.gz" to (tar, pgzip),
    "x.tar.zip" to (zip, none), "x.zip" to (zip, none), "x.lz4" to (none, lz4)
    and "x.unknownext" to (tar, pgzip); and it answers (tar, pgzip) whenever
    the scanned string holds no match of the pattern, whatever the
    configuration held before. *)
Theorem classify_table :
  classify "x.tar" "" = ("tar", "") /\
  classify "x.tar.gz" "" = ("tar", "pgzip") /\
  classify "x.tar.zip" "" = ("zip", "") /\
  classify "x.zip" "" = ("zip", "") /\
  classify "x.lz4" "" = ("", "lz4") /\
  classify "x.unknownext" "" = ("tar", "pgzip") /\
  (forall name : string,
     FindAllStringSubmatch name = [] -> classify name "" = ("tar", "pgzip")) /\
  (forall name : string,
     hasDot name = false -> classify name "" = ("tar", "pgzip")) /\
  (forall config : Config,
     FindAllStringSubmatch (scanned config) = [] ->
     kinds (detectFromFilename config) = ("tar", "pgzip")).
Proof.
  repeat split; try (vm_compute; reflexivity).
  - intros name H. unfold classify, detectFromFilename.
    change (scanned (newConfig name "")) with name. rewrite H. reflexivity.
  - intros name H. unfold classify, detectFromFilename, FindAllStringSubmatch.
    change (scanned (newConfig name "")) with name.
    rewrite (scan_no_dot name H). reflexivity.
  - intros config H. unfold detectFromFilename. rewrite H. reflexivity.
Qed.

Lemma classify_table_witness :
  FindAllStringSubmatch "out" = [] /\ classify "out" "" = ("tar", "pgzip").
Proof.
  split; [reflexivity|].
  apply (proj1 (proj2 (proj2 (proj2 (proj2 (proj2 (proj2 classify_table))))))).
  reflexivity.
Defined.

(** C5: when the last match is "zip" or "tar", the classifier stores it as the
    archive and leaves the algorithm as it was (unset, for a fresh
    configuration); a name ending in ".tar.zip" is a zip archive. *)
Theorem terminal_archive_suffix :
  (forall (config : Config) (lastItem : string),
     last (scan None (scanned config)) = Some lastItem ->
     lastItem = "zip" \/ lastItem = "tar" ->
     Archive (detectFromFilename config) = lastItem /\
     Algorithm (detectFromFilename config) = Algorithm config) /\
  (forall prefix : string, classify (prefix +:+ ".tar.zip") "" = ("zip", "")).
Proof.
  assert (G : forall (config : Config) (lastItem : string),
     last (scan None (scanned config)) = Some lastItem ->
     lastItem = "zip" \/ lastItem = "tar" ->
     Archive (detectFromFilename config) = lastItem /\
     Algorithm (detectFromFilename config) = Algorithm config).
  { intros config lastItem Hlast Hkind.
    destruct (FindAll_last _ _ Hlast) as [Hlen Hgrp].
    unfold detectFromFilename, detectFrom. rewrite Hlen, Hgrp.
    assert (Hb : String.eqb lastItem "zip" || String.eqb lastItem "tar" = true)
      by (destruct Hkind; subst; reflexivity).
    rewrite Hb. cbv zeta.
    match goal with
    | |- context [if String.eqb ?x "tar" then setArchive "tar" config else config] =>
        destruct (String.eqb x "tar")
    end; split; reflexivity. }
  split; [exact G|].
  intros prefix. unfold classify, kinds.
  destruct (G (newConfig (prefix +:+ ".tar.zip") "") "zip") as [-> ->];
    [|left; reflexivity|reflexivity].
  change (scanned (newConfig (prefix +:+ ".tar.zip") "")) with (prefix +:+ ".tar.zip").
  change ".tar.zip" with (String "." "tar.zip").
  rewrite scan_app_dot. rewrite last_app. reflexivity.
Qed.

Lemma terminal_archive_suffix_witness :
  Archive (detectFromFilename (newConfig "disk.img.tar" "")) = "tar" /\
  Algorithm (detectFromFilename (newConfig "disk.img.tar" "")) = "".
Proof.
  apply (proj1 terminal_archive_suffix (newConfig "disk.img.tar" "") "tar").
  - reflexivity.
  - right; reflexivity.
Defined.

(** C8: the string scanned is the output path when the format is empty, and
    the output path, a dot and the format otherwise; the classification
    depends on the path and the format through that string only. *)
Theorem scanned_string (config : Config) :
  (Format config = "" -> scanned config = OutputPath config) /\
  (Format config <> "" ->
   scanned config = OutputPath config +:+ "." +:+ Format config) /\
  detectFromFilename config
    = detectFrom (FindAllStringSubmatch (scanned config)) config /\
  (Format config <> "" ->
   kinds (detectFromFilename config)
     = kinds (detectFromFilename
                (setFormat "" (setOutputPath
                   (OutputPath config +:+ "." +:+ Format config) config)))).
Proof.
  assert (H1 : Format config = "" -> scanned config = OutputPath config).
  { intros H. unfold scanned. rewrite H. reflexivity. }
  assert (H2 : Format config <> "" ->
               scanned config = OutputPath config +:+ "." +:+ Format config).
  { intros H. unfold scanned. apply String_eqb_empty in H. rewrite H.
    apply Sprintf_dot. }
  repeat split; trivial.
  intros H. unfold detectFromFilename. rewrite (H2 H).
  change (scanned (setFormat "" _)) with (OutputPath config +:+ "." +:+ Format config).
  generalize (FindAllStringSubmatch (OutputPath config +:+ "." +:+ Format config)).
  intros result. unfold detectFrom.
  destruct (length result =? 0)%nat; [reflexivity|].
  cbv zeta.
  destruct (String.eqb (if (length result =? 1)%nat then "" else _) "tar");
  destruct (_ || _); try reflexivity;
  destruct (extensions !! _); reflexivity.
Qed.

Lemma scanned_string_witness :
  scanned (newConfig "out" "tar.gz") = "out.tar.gz" /\
  kinds (detectFromFilename (newConfig "out" "tar.gz"))
    = kinds (detectFromFilename (newConfig "out.tar.gz" "")).
Proof.
  split.
  - apply (proj1 (proj2 (scanned_string (newConfig "out" "tar.gz")))).
    discriminate.
  - apply (proj2 (proj2 (proj2 (scanned_string (newConfig "out" "tar.gz"))))).
    discriminate.
Defined.

(** ** Compression levels *)

Ltac level_cases :=
  repeat match goal with
  | |- context [?a >? ?b] => destruct (Z.gtb_spec a b)
  | |- context [(?a =? ?b)%Z] => destruct (Z.eqb_spec a b)
  | H : context [?a >? ?b] |- _ => destruct (Z.gtb_spec a b)
  | H : context [(?a =? ?b)%Z] |- _ => destruct (Z.eqb_spec a b)
  end.

(** The level [normalizeLevel] stores, as a function of the level it finds. *)
Lemma normalizeLevel_level (config : Config) :
  let l := CompressionLevel config in
  let l' := CompressionLevel (normalizeLevel config) in
  (l > 9 -> l' = 9) /\
  (l = 0 \/ l = -1 -> l' = -1) /\
  (1 <= l <= 9 -> l' = l) /\
  (l < -1 -> l' = l).
Proof.
  unfold normalizeLevel, pgzip_BestCompression, pgzip_DefaultCompression.
  cbv zeta. repeat split; intros H; level_cases; cbn in *; lia.
Qed.

(** [normalizeLevel] touches the level only, and reads nothing else. *)
Lemma normalizeLevel_eta (config : Config) :
  normalizeLevel config
  = setCompressionLevel (normalLevel (CompressionLevel config)) config.
Proof.
  destruct config as [bn bt o f l ar al].
  unfold normalLevel, normalizeLevel, pgzip_BestCompression,
    pgzip_DefaultCompression.
  cbn. level_cases; cbn in *; first [reflexivity | exfalso; lia].
Qed.

(** The classifier neither reads nor writes the level. *)
Lemma detectFromFilename_set_level (l : Z) (config : Config) :
  detectFromFilename (setCompressionLevel l config)
  = setCompressionLevel l (detectFromFilename config).
Proof.
  unfold detectFromFilename.
  change (scanned (setCompressionLevel l config)) with (scanned config).
  generalize (FindAllStringSubmatch (scanned config)). intros result.
  unfold detectFrom.
  destruct (length result =? 0)%nat; [reflexivity|]. cbv zeta.
  match goal with
  | |- context [if String.eqb ?x "tar" then setArchive "tar" config else config] =>
      destruct (String.eqb x "tar")
  end;
  destruct (_ || _); try reflexivity; destruct (extensions !! _); reflexivity.
Qed.

Lemma Configure_unfold (E : Env) (config : Config) :
  Configure E (config, None)
  = (setCompressionLevel (normalLevel (CompressionLevel config))
       (detectFromFilename (withDefaultOutput config)),
     match interpolate_Validate E (OutputPath (withDefaultOutput config)) with
     | Some err =>
         Some (MultiError
                 [Errorf "Error parsing target template: %s" [Str (Error err)]])
     | None => None
     end).
Proof.
  unfold Configure. fold (withDefaultOutput config).
  rewrite normalizeLevel_eta, detectFromFilename_set_level.
  cbn [OutputPath setCompressionLevel].
  assert (HL : CompressionLevel (withDefaultOutput config) = CompressionLevel config)
    by (unfold withDefaultOutput; destruct (String.eqb _ _); reflexivity).
  rewrite HL.
  destruct (interpolate_Validate E _); reflexivity.
Qed.

(** [Configure] depends on the level it is given through the normalised level
    only, which it stores; nothing else of its result depends on the level. *)
Lemma Configure_set_level (E : Env) (l : Z) (config : Config) :
  Configure E (setCompressionLevel l config, None)
  = (setCompressionLevel (normalLevel l) (fst (Configure E (config, None))),
     snd (Configure E (config, None))).
Proof.
  rewrite !Configure_unfold. cbn [fst snd].
  assert (HW : withDefaultOutput (setCompressionLevel l config)
               = setCompressionLevel l (withDefaultOutput config))
    by (unfold withDefaultOutput; cbn [OutputPath setCompressionLevel];
        destruct (String.eqb _ _); reflexivity).
  rewrite HW, detectFromFilename_set_level. reflexivity.
Qed.

(** Two levels that normalise to the same level give the same configuration. *)
Lemma same_normal_level (E : Env) (l1 l2 : Z) (config : Config) :
  normalLevel l1 = normalLevel l2 ->
  Configure E (setCompressionLevel l1 config, None)
  = Configure E (setCompressionLevel l2 config, None).
Proof.
  intros H. rewrite (Configure_set_level E l1), (Configure_set_level E l2).
  rewrite H. reflexivity.
Qed.

Lemma normalLevel_cases (l : Z) :
  (l > 9 -> normalLevel l = 9) /\
  (l = 0 \/ l = -1 -> normalLevel l = -1) /\
  (1 <= l <= 9 -> normalLevel l = l) /\
  (l < -1 -> normalLevel l = l).
Proof.
  pose proof (normalizeLevel_level (setCompressionLevel l (newConfig "" ""))) as H.
  exact H.
Qed.

Lemma run_Configure_eq (E : Env) (d1 d2 : Config * option error)
    (artifact : SourceArtifact) (t : trace) :
  Configure E d1 = Configure E d2 -> run E d1 artifact t = run E d2 artifact t.
Proof. intros H. unfold run. rewrite H. reflexivity. Qed.

Lemma Configure_stored_level (E : Env) (l : Z) (config : Config) :
  CompressionLevel (fst (Configure E (setCompressionLevel l config, None)))
  = normalLevel l.
Proof. rewrite Configure_set_level. reflexivity. Qed.

(** C4: a level above the maximum is stored as the maximum, 9, so that the
    configuration and the run are those of level 9; the levels 0 and -1 are
    stored as the library default, -1, with the configuration and the run of
    the default; no level is ever stored as 0. *)
Theorem level_clamping (E : Env) (config : Config) (level : Z)
    (artifact : SourceArtifact) (t : trace) :
  level > pgzip_BestCompression ->
  (Configure E (setCompressionLevel level config, None)
   = Configure E (setCompressionLevel pgzip_BestCompression config, None) /\
   run E (setCompressionLevel level config, None) artifact t
   = run E (setCompressionLevel pgzip_BestCompression config, None) artifact t /\
   CompressionLevel (fst (Configure E (setCompressionLevel level config, None)))
   = 9) /\
  (Configure E (setCompressionLevel 0 config, None)
   = Configure E (setCompressionLevel pgzip_DefaultCompression config, None) /\
   Configure E (setCompressionLevel (-1) config, None)
   = Configure E (setCompressionLevel pgzip_DefaultCompression config, None) /\
   run E (setCompressionLevel 0 config, None) artifact t
   = run E (setCompressionLevel pgzip_DefaultCompression config, None) artifact t /\
   run E (setCompressionLevel (-1) config, None) artifact t
   = run E (setCompressionLevel pgzip_DefaultCompression config, None) artifact t /\
   CompressionLevel (fst (Configure E (setCompressionLevel 0 config, None)))
   = pgzip_DefaultCompression) /\
  (forall l : Z,
     CompressionLevel (fst (Configure E (setCompressionLevel l config, None)))
     <> 0).
Proof.
  intros Hmax. unfold pgzip_BestCompression in Hmax.
  assert (H15 : Configure E (setCompressionLevel level config, None)
                = Configure E (setCompressionLevel pgzip_BestCompression config, None)).
  { apply same_normal_level.
    rewrite (proj1 (normalLevel_cases level)) by exact Hmax. reflexivity. }
  assert (H0 : Configure E (setCompressionLevel 0 config, None)
               = Configure E (setCompressionLevel pgzip_DefaultCompression config, None))
    by (apply same_normal_level; reflexivity).
  split; [|split].
  - split; [exact H15|split].
    + apply run_Configure_eq, H15.
    + rewrite Configure_stored_level. apply normalLevel_cases, Hmax.
  - split; [exact H0|]. split; [reflexivity|]. split; [|split].
    + apply run_Configure_eq, H0.
    + reflexivity.
    + rewrite Configure_stored_level. reflexivity.
  - intros l. rewrite Configure_stored_level.
    destruct (normalLevel_cases l) as (H1 & H2 & H3 & H4).
    destruct (Z_lt_le_dec 9 l); [rewrite H1; lia|].
    destruct (Z_lt_le_dec l (-1)); [rewrite H4; lia|].
    destruct (Z_lt_le_dec l 1); [rewrite H2; lia|].
    rewrite H3; lia.
Qed.

Lemma level_clamping_witness :
  run sampleEnv (decodedAs "out.gz" "" 15) (mkSource ["disk.img"] None) []
  = run sampleEnv (decodedAs "out.gz" "" 9) (mkSource ["disk.img"] None) [].
Proof.
  apply (level_clamping sampleEnv (newConfig "out.gz" "") 15
           (mkSource ["disk.img"] None) []).
  reflexivity.
Defined.

(** ** The writer factories *)

(** What [makeBZIP2Writer] does: one call to the library, with the level
    [bzipCFG_Level]; the library's error is returned as it is. *)
Lemma makeBZIP2Writer_unfold (E : Env) (output : writer) (level : Z) (t : trace) :
  makeBZIP2Writer E output level t
  = match bzip2_NewWriter E t output (bzipCFG_Level level) with
    | Some err => (Err err, t)
    | None =>
        (Ok (Bzip2Writer output (bzipCFG_Level level)),
         t ++ [NewWriter (Bzip2Writer output (bzipCFG_Level level))])
    end.
Proof.
  unfold makeBZIP2Writer, mbind, M_bind, call.
  destruct (bzip2_NewWriter E t output _); reflexivity.
Qed.

(** C6, as the code has it: [makeBZIP2Writer] passes level 9 to the library
    when the level it is given is at most 0, and otherwise that level
    unchanged, however large; but the level it is given in a run is the one
    [Configure] stored, so that the level passed to the library is the
    caller's capped at 9 when the caller's is positive, and 9 otherwise. *)
Theorem bzip2_level (E : Env) :
  (forall level : Z, level <= 0 -> bzipCFG_Level level = 9) /\
  (forall level : Z, level > 0 -> bzipCFG_Level level = level) /\
  (forall (output : writer) (level : Z) (t : trace),
     bzip2_NewWriter E t output (bzipCFG_Level level) = None ->
     makeBZIP2Writer E output level t
     = (Ok (Bzip2Writer output (bzipCFG_Level level)),
        t ++ [NewWriter (Bzip2Writer output (bzipCFG_Level level))])) /\
  (forall (config p : Config),
     Configure E (config, None) = (p, None) ->
     (CompressionLevel config > 0 ->
      bzipCFG_Level (CompressionLevel p) = Z.min (CompressionLevel config) 9) /\
     (CompressionLevel config <= 0 -> bzipCFG_Level (CompressionLevel p) = 9)).
Proof.
  split; [|split; [|split]].
  - intros level H. unfold bzipCFG_Level.
    destruct (Z.gtb_spec level 0); [lia | reflexivity].
  - intros level H. unfold bzipCFG_Level.
    destruct (Z.gtb_spec level 0); [reflexivity | lia].
  - intros output level t H. rewrite makeBZIP2Writer_unfold, H. reflexivity.
  - intros config p H. rewrite Configure_unfold in H. injection H as Hp _.
    cbv zeta. rewrite <- Hp. cbn [CompressionLevel setCompressionLevel].
    unfold bzipCFG_Level.
    destruct (normalLevel_cases (CompressionLevel config)) as (H1 & H2 & H3 & H4).
    split; intros Hl.
    + destruct (Z_lt_le_dec 9 (CompressionLevel config));
        [rewrite H1 by lia; cbn; lia|].
      rewrite H3 by lia.
      destruct (Z.gtb_spec (CompressionLevel config) 0); lia.
    + destruct (Z_lt_le_dec (CompressionLevel config) (-1));
        [rewrite H4 by lia|rewrite H2 by lia; reflexivity].
      destruct (Z.gtb_spec (CompressionLevel config) 0); lia.
Qed.

Lemma bzip2_level_witness :
  bzipCFG_Level (-3) = 9 /\ bzipCFG_Level 40 = 40 /\
  bzipCFG_Level
    (CompressionLevel (fst (Configure sampleEnv (decodedAs "out.bzip2" "" 40))))
  = Z.min 40 9.
Proof.
  split; [|split].
  - apply (proj1 (bzip2_level sampleEnv)). lia.
  - apply (proj1 (proj2 (bzip2_level sampleEnv))). lia.
  - apply (proj1 (proj2 (proj2 (proj2 (bzip2_level sampleEnv)))
                    (setCompressionLevel 40 (newConfig "out.bzip2" ""))
                    (fst (Configure sampleEnv (decodedAs "out.bzip2" "" 40)))
                    eq_refl)).
    cbn. lia.
Defined.

(** C6 as stated fails: for a bzip2 output and the caller's level 15, the run
    builds the bzip2 writer with level 9, not 15. *)
Lemma bzip2_level_counterexample :
  ~ (forall (E : Env) (config p : Config),
       Configure E (config, None) = (p, None) ->
       Algorithm p = "bzip2" ->
       CompressionLevel config > 0 ->
       bzipCFG_Level (CompressionLevel p) = CompressionLevel config) /\
  Algorithm (fst (Configure sampleEnv (decodedAs "out.bzip2" "" 15))) = "bzip2" /\
  run sampleEnv (decodedAs "out.bzip2" "" 15) (mkSource ["disk.img"] None) []
  = (Ok (mkArtifact "out.bzip2"),
     [Println "out.bzip2"; MkdirAll "." 493; Create "out.bzip2";
      Say "Using bzip2 compression with 1 core for out.bzip2 (library does not support MT)";
      NewWriter (Bzip2Writer (File "out.bzip2") 9);
      Say "Archiving disk.img with bzip2"; Open "disk.img";
      Copy (Bzip2Writer (File "out.bzip2") 9) "disk.img";
      Say "Archive out.bzip2 completed"; CloseFile "disk.img";
      Close (Bzip2Writer (File "out.bzip2") 9); Close (File "out.bzip2")]).
Proof.
  split; [|split; vm_compute; reflexivity].
  intros H.
  specialize (H sampleEnv (setCompressionLevel 15 (newConfig "out.bzip2" ""))
                (fst (Configure sampleEnv (decodedAs "out.bzip2" "" 15)))
                eq_refl eq_refl eq_refl).
  vm_compute in H. discriminate H.
Qed.

(** C7: whenever the library refuses to build the writer, [makePgzipWriter]
    and [makeBGZFWriter] return [ErrInvalidCompressionLevel], whatever error
    the library gave, and leave no effect behind. *)
Theorem invalid_level_error (E : Env) (output : writer) (level : Z) (t : trace) :
  (forall err : error,
     pgzip_NewWriterLevel E t output level = Some err ->
     makePgzipWriter E output level t = (Err ErrInvalidCompressionLevel, t)) /\
  (forall err : error,
     bgzf_NewWriterLevel E t output level (GOMAXPROCS E) = Some err ->
     makeBGZFWriter E output level t = (Err ErrInvalidCompressionLevel, t)).
Proof.
  split; intros err H.
  - unfold makePgzipWriter, mbind, M_bind, orElse, call. rewrite H. reflexivity.
  - unfold makeBGZFWriter, mbind, M_bind, orElse, call. rewrite H. reflexivity.
Qed.

Lemma invalid_level_error_witness :
  makePgzipWriter sampleEnv (File "out.gz") (-7) []
  = (Err ErrInvalidCompressionLevel, []) /\
  makeBGZFWriter sampleEnv (File "out.bgzf") (-7) []
  = (Err ErrInvalidCompressionLevel, []).
Proof.
  split.
  - apply (proj1 (invalid_level_error sampleEnv (File "out.gz") (-7) [])
             (External "gzip: invalid compression level")).
    reflexivity.
  - apply (proj2 (invalid_level_error sampleEnv (File "out.bgzf") (-7) [])
             (External "gzip: invalid compression level")).
    reflexivity.
Defined.

(** C9: with the xz algorithm the level is not read: [makeXZWriter] takes no
    level, and two configurations that differ by the level only give the same
    result and the same effects, in [PostProcess] and in the whole run. *)
Theorem xz_ignores_level (E : Env) (p : Config) (l1 l2 : Z)
    (artifact : SourceArtifact) (t : trace) :
  (Algorithm p = "xz" ->
   PostProcess E (setCompressionLevel l1 p) artifact t
   = PostProcess E (setCompressionLevel l2 p) artifact t) /\
  (Algorithm (fst (Configure E (p, None))) = "xz" ->
   run E (setCompressionLevel l1 p, None) artifact t
   = run E (setCompressionLevel l2 p, None) artifact t).
Proof.
  assert (G : forall (q : Config) (a b : Z), Algorithm q = "xz" ->
            PostProcess E (setCompressionLevel a q) artifact t
            = PostProcess E (setCompressionLevel b q) artifact t).
  { intros q a b H. unfold PostProcess, withOutput.
    cbn [Algorithm setCompressionLevel]. rewrite H. reflexivity. }
  split; [apply G|].
  intros H. unfold run. rewrite !Configure_set_level.
  destruct (snd (Configure E (p, None))); [reflexivity|].
  apply G, H.
Qed.

Lemma xz_ignores_level_witness :
  run sampleEnv (decodedAs "out.xz" "" 3) (mkSource ["disk.img"] None) []
  = run sampleEnv (decodedAs "out.xz" "" 8) (mkSource ["disk.img"] None) [].
Proof.
  apply (proj2 (xz_ignores_level sampleEnv (newConfig "out.xz" "") 3 8
                  (mkSource ["disk.img"] None) [])).
  reflexivity.
Defined.

(** ** No archive and a wrong number of files *)

Section WrongInputCount.

Variable E : Env.
Variable p : Config.
Variable artifact : SourceArtifact.

Hypothesis not_tar : Archive p <> "tar".
Hypothesis not_zip : Archive p <> "zip".
Hypothesis not_one : length (Files artifact) <> 1%nat.

(** The archive stage stops at once. *)
Lemma writeArchive_mismatch (target : string) (newArtifact : Artifact)
    (output : writer) :
  writeArchive E p artifact target newArtifact output
  = fail (wrongInputCount (Files artifact)).
Proof.
  unfold writeArchive.
  apply String.eqb_neq in not_tar, not_zip. rewrite not_tar, not_zip.
  apply Nat.eqb_neq in not_one. rewrite not_one. reflexivity.
Qed.

(** The output stage in front of it: either the writer cannot be built, or it
    is built and closed again around the failure. *)
Lemma withOutput_mismatch (target : string) (outputFile : writer) (t : trace) :
  exists (err : error) (mid : trace),
    withOutput E p target outputFile
      (writeArchive E p artifact target (mkArtifact target)) t
    = (Err err, t ++ mid) /\
    ((err = wrongInputCount (Files artifact) /\
      ((knownAlgorithm p = false /\ mid = []) \/
       (knownAlgorithm p = true /\
        exists (message : string) (w : writer),
          mid = [Say message; NewWriter w; Close w]))) \/
     (exists (err0 : error) (message : string),
        err = Errorf errTmpl [Str (Algorithm p); Str (Error err0)] /\
        mid = [Say message])).
Proof.
  unfold withOutput, knownAlgorithm.
  destruct (String.eqb (Algorithm p) "bgzf");
    [|destruct (String.eqb (Algorithm p) "bzip2");
      [|destruct (String.eqb (Algorithm p) "lz4");
        [|destruct (String.eqb (Algorithm p) "xz");
          [|destruct (String.eqb (Algorithm p) "pgzip")]]]].
  6: { rewrite writeArchive_mismatch. exists (wrongInputCount (Files artifact)), [].
       rewrite app_nil_r. split; [reflexivity|]. left. split; [reflexivity|].
       left. split; reflexivity. }
  all: unfold withWriter, makeBGZFWriter, makeBZIP2Writer, makeLZ4Writer,
         makeXZWriter, makePgzipWriter, mbind, M_bind, mret, M_ret, emit,
         orElse, call, defer.
  all: repeat match goal with
       | |- context [match ?o with Some _ => _ | None => _ end] =>
           destruct o eqn:?
       end.
  all: rewrite ?writeArchive_mismatch; unfold fail.
  all: first
    [ eexists _, [_; _; _]; rewrite <- !app_assoc; cbn [app];
      split; [reflexivity|]; left; split; [reflexivity|]; right;
      split; [reflexivity|]; eexists _, _; reflexivity
    | eexists _, [_]; split; [reflexivity|]; right;
      eexists _, _; split; reflexivity ].
Qed.

End WrongInputCount.

(** How [PostProcess] ends when there is no archive to build and the artifact
    does not hold exactly one file: at the first step that fails, the count
    of the files being looked at last. *)
Lemma PostProcess_mismatch (E : Env) (p : Config) (artifact : SourceArtifact)
    (t : trace) :
  Archive p <> "tar" -> Archive p <> "zip" ->
  length (Files artifact) <> 1%nat ->
  exists (err : error) (new : trace),
    PostProcess E p artifact t = (Err err, t ++ new) /\
    ((exists err0 : error,
        interpolate_Render E (OutputPath p) (generatedData p artifact) = Err err0 /\
        err = Errorf "Error interpolating output value: %s" [Str (Error err0)] /\
        new = []) \/
     (exists target : string,
        interpolate_Render E (OutputPath p) (generatedData p artifact) = Ok target /\
        ((exists err0 : error,
            err = Errorf "Unable to create dir for archive %s: %s"
                    [Str target; Str (Error err0)] /\
            new = [Println target]) \/
         (exists err0 : error,
            err = Errorf "Unable to create archive %s: %s"
                    [Str target; Str (Error err0)] /\
            new = [Println target; MkdirAll (filepath_Dir E target) 493]) \/
         (exists (err0 : error) (message : string),
            err = Errorf errTmpl [Str (Algorithm p); Str (Error err0)] /\
            new = [Println target; MkdirAll (filepath_Dir E target) 493;
                   Create target; Say message; Close (File target)]) \/
         (err = wrongInputCount (Files artifact) /\
          exists mid : trace,
            new = [Println target; MkdirAll (filepath_Dir E target) 493;
                   Create target] ++ mid ++ [Close (File target)] /\
            ((knownAlgorithm p = false /\ mid = []) \/
             (knownAlgorithm p = true /\
              exists (message : string) (w : writer),
                mid = [Say message; NewWriter w; Close w])))))).
Proof.
  intros Htar Hzip Hone.
  unfold PostProcess, mbind, M_bind, orElse, emit, call, defer.
  destruct (interpolate_Render E (OutputPath p) (generatedData p artifact))
    as [target|err0] eqn:Hrender.
  2: { exists (Errorf "Error interpolating output value: %s" [Str (Error err0)]), [].
       rewrite app_nil_r. split; [reflexivity|]. left. exists err0. auto. }
  destruct (os_MkdirAll E (t ++ [Println target]) (filepath_Dir E target))
    as [err0|] eqn:Hmkdir.
  { eexists _, [_]. split; [reflexivity|]. right. exists target.
    split; [reflexivity|]. left. exists err0. auto. }
  destruct (os_Create E _ target) as [err0|] eqn:Hcreate.
  { eexists _, [_; _]. rewrite <- !app_assoc. cbn [app].
    split; [reflexivity|]. right. exists target.
    split; [reflexivity|]. right. left. exists err0. auto. }
  destruct (withOutput_mismatch E p artifact Htar Hzip Hone target (File target)
              (((t ++ [Println target])
                ++ [MkdirAll (filepath_Dir E target) 493]) ++ [Create target]))
    as (err & mid & Hout & Hcases).
  rewrite Hout.
  exists err,
    ([Println target; MkdirAll (filepath_Dir E target) 493; Create target]
     ++ mid ++ [Close (File target)]).
  split.
  { f_equal. rewrite <- !app_assoc. reflexivity. }
  right. exists target. split; [reflexivity|]. right. right.
  destruct Hcases as [[-> Hmid] | (err0 & message & -> & ->)].
  - right. split; [reflexivity|]. exists mid. auto.
  - left. exists err0, message. auto.
Qed.

(** The message of the count error is that of [ErrWrongInputCount], followed
    by the count and the list of the files. *)
Lemma wrongInputCount_message (files : list string) :
  Error (wrongInputCount files)
  = Error ErrWrongInputCount +:+ ". Found "
    +:+ itoa (Z.of_nat (length files)) +:+ " files: ["
    +:+ join " " files +:+ "]".
Proof.
  cbn [Error wrongInputCount Sprintf formatArg].
  rewrite append_empty_r. reflexivity.
Qed.

Ltac setup_format :=
  eexists _, _; split; [reflexivity|]; unfold setupFormats; cbn; auto.

(** C2, as the code has it: with no archive to build and a number of files
    other than 1, [PostProcess] fails and the error is never the value
    [ErrWrongInputCount]: it is an error built on the spot, whose message is
    that of [ErrWrongInputCount] followed by the count and the list of the
    files, unless a step before the count (rendering the path, creating the
    directory or the file, building the compression writer) failed first. *)
Theorem wrong_input_count (E : Env) (p : Config) (artifact : SourceArtifact)
    (t : trace) :
  Archive p <> "tar" -> Archive p <> "zip" ->
  length (Files artifact) <> 1%nat ->
  exists err : error,
    fst (PostProcess E p artifact t) = Err err /\
    err <> ErrWrongInputCount /\
    (err = wrongInputCount (Files artifact) \/
     exists (format : string) (args : list arg),
       err = Errorf format args /\ In format setupFormats) /\
    Error (wrongInputCount (Files artifact))
    = Error ErrWrongInputCount +:+ ". Found "
      +:+ itoa (Z.of_nat (length (Files artifact))) +:+ " files: ["
      +:+ join " " (Files artifact) +:+ "]".
Proof.
  intros Htar Hzip Hone.
  destruct (PostProcess_mismatch E p artifact t Htar Hzip Hone)
    as (err & new & Hrun & Hcases).
  exists err. rewrite Hrun. split; [reflexivity|].
  assert (Hkind : err = wrongInputCount (Files artifact) \/
                  exists (format : string) (args : list arg),
                    err = Errorf format args /\ In format setupFormats).
  { destruct Hcases as [(err0 & _ & -> & _) | (target & _ & Hcases)];
      [right; setup_format|].
    destruct Hcases as [(err0 & -> & _) | [(err0 & -> & _)
                       | [(err0 & message & -> & _) | (-> & _)]]].
    - right; setup_format.
    - right; setup_format.
    - right; setup_format.
    - left; reflexivity. }
  split; [|split; [exact Hkind | apply wrongInputCount_message]].
  destruct Hkind as [-> | (format & args & -> & _)]; discriminate.
Qed.

Lemma wrong_input_count_witness :
  exists err : error,
    fst (PostProcess sampleEnv (newConfig "out" "") (mkSource ["a"; "b"] None) [])
    = Err err /\
    err <> ErrWrongInputCount.
Proof.
  destruct (wrong_input_count sampleEnv (newConfig "out" "")
              (mkSource ["a"; "b"] None) [])
    as (err & Hrun & Hne & _).
  - discriminate.
  - discriminate.
  - discriminate.
  - exists err. split; assumption.
Defined.

(** C2 as stated fails: two files and no archive give an error that is not
    [ErrWrongInputCount]. *)
Lemma wrong_input_count_counterexample :
  Archive (fst (Configure sampleEnv (decodedAs "out.gz" "" 0))) = "" /\
  fst (run sampleEnv (decodedAs "out.gz" "" 0) (mkSource ["a"; "b"] None) [])
  = Err (Errorf
           "Can only have 1 input file when not using tar/zip. Found %d files: %v"
           [Int 2; Strs ["a"; "b"]]) /\
  fst (run sampleEnv (decodedAs "out.gz" "" 0) (mkSource ["a"; "b"] None) [])
  <> Err ErrWrongInputCount.
Proof.
  split; [|split].
  - vm_compute. reflexivity.
  - vm_compute. reflexivity.
  - vm_compute. discriminate.
Qed.

(** C3, as the code has it: with no archive to build and a number of files
    other than 1, [PostProcess] fails without reading any input file; but the
    count is looked at last: when the error is the count error, the directory
    and the output file have been created and the compression writer, if the
    algorithm has one, has been built, and both are closed again on return. *)
Theorem count_checked_last (E : Env) (p : Config) (artifact : SourceArtifact)
    (t : trace) :
  Archive p <> "tar" -> Archive p <> "zip" ->
  length (Files artifact) <> 1%nat ->
  exists (err : error) (new : trace),
    PostProcess E p artifact t = (Err err, t ++ new) /\
    Forall (fun ev => readsInput ev = false) new /\
    (err = wrongInputCount (Files artifact) ->
     exists (target : string) (mid : trace),
       interpolate_Render E (OutputPath p) (generatedData p artifact) = Ok target /\
       new = [Println target; MkdirAll (filepath_Dir E target) 493; Create target]
             ++ mid ++ [Close (File target)] /\
       ((knownAlgorithm p = false /\ mid = []) \/
        (knownAlgorithm p = true /\
         exists (message : string) (w : writer),
           mid = [Say message; NewWriter w; Close w]))) /\
    (err <> wrongInputCount (Files artifact) ->
     exists (format : string) (args : list arg),
       err = Errorf format args /\ In format setupFormats).
Proof.
  intros Htar Hzip Hone.
  destruct (PostProcess_mismatch E p artifact t Htar Hzip Hone)
    as (err & new & Hrun & Hcases).
  exists err, new. split; [exact Hrun|].
  destruct Hcases as [(err0 & _ & -> & ->) | (target & Hrender & Hcases)].
  { split; [constructor|]. split; [discriminate|]. intros _. setup_format. }
  destruct Hcases as [(err0 & -> & ->) | [(err0 & -> & ->)
                     | [(err0 & message & -> & ->) | (-> & mid & -> & Hmid)]]].
  - split; [repeat constructor|]. split; [discriminate|]. intros _. setup_format.
  - split; [repeat constructor|]. split; [discriminate|]. intros _. setup_format.
  - split; [repeat constructor|]. split; [discriminate|]. intros _. setup_format.
  - split.
    + destruct Hmid as [[_ ->] | (_ & message & w & ->)]; repeat constructor.
    + split; [|intros H; contradiction H; reflexivity].
      intros _. exists target, mid. auto.
Qed.

Lemma count_checked_last_witness :
  exists (err : error) (new : trace),
    PostProcess sampleEnv (setAlgorithm "lz4" (newConfig "out.lz4" ""))
      (mkSource [] None) []
    = (Err err, [] ++ new) /\
    Forall (fun ev => readsInput ev = false) new.
Proof.
  destruct (count_checked_last sampleEnv
              (setAlgorithm "lz4" (newConfig "out.lz4" "")) (mkSource [] None) [])
    as (err & new & Hrun & Hread & _).
  - discriminate.
  - discriminate.
  - discriminate.
  - exists err, new. split; assumption.
Defined.

(** C3 as stated fails: by the time the count error is returned the output
    file has been created and the compression writer built. *)
Lemma count_checked_last_counterexample :
  Archive (fst (Configure sampleEnv (decodedAs "out.gz" "" 0))) = "" /\
  run sampleEnv (decodedAs "out.gz" "" 0) (mkSource ["a"; "b"] None) []
  = (Err (wrongInputCount ["a"; "b"]),
     [Println "out.gz"; MkdirAll "." 493; Create "out.gz";
      Say "Using pgzip compression with 4 cores for out.gz";
      NewWriter (PgzipWriter (File "out.gz") (-1) 500000 4);
      Close (PgzipWriter (File "out.gz") (-1) 500000 4);
      Close (File "out.gz")]) /\
  ~ (forall (E : Env) (p : Config) (artifact : SourceArtifact) (ev : event),
       Archive p <> "tar" -> Archive p <> "zip" ->
       length (Files artifact) <> 1%nat ->
       In ev (snd (PostProcess E p artifact [])) ->
       match ev with
       | Create _ | NewWriter _ => False
       | _ => True
       end).
Proof.
  split; [vm_compute; reflexivity|]. split; [vm_compute; reflexivity|].
  intros H.
  apply (H sampleEnv (fst (Configure sampleEnv (decodedAs "out.gz" "" 0)))
           (mkSource ["a"; "b"] None) (Create "out.gz")).
  - vm_compute. discriminate.
  - vm_compute. discriminate.
  - vm_compute. discriminate.
  - vm_compute. right. right. left. reflexivity.
Qed.

(** ** The effects of a run *)

Section Emits.

Context {A B : Type} (P : event -> Prop).

Lemma emits_ret (a : A) : emits P (mret a).
Proof. intros t. exists []. rewrite app_nil_r. split; [reflexivity|constructor]. Qed.

Lemma emits_fail (e : error) : emits P (@fail A e).
Proof. intros t. exists []. rewrite app_nil_r. split; [reflexivity|constructor]. Qed.

Lemma emits_emit (ev : event) : P ev -> emits P (emit ev).
Proof. intros H t. exists [ev]. split; [reflexivity|repeat constructor; exact H]. Qed.

Lemma emits_call (outcome : trace -> option error) (ev : event) :
  P ev -> emits P (call outcome ev).
Proof.
  intros H t. unfold call. destruct (outcome t).
  - exists []. rewrite app_nil_r. split; [reflexivity|constructor].
  - exists [ev]. split; [reflexivity|repeat constructor; exact H].
Qed.

Lemma emits_check (outcome : trace -> option error) : emits P (check outcome).
Proof.
  intros t. unfold check. exists []. rewrite app_nil_r.
  destruct (outcome t); (split; [reflexivity|constructor]).
Qed.

Lemma emits_pure (r : result A) : emits P (fun t => (r, t)).
Proof. intros t. exists []. rewrite app_nil_r. split; [reflexivity|constructor]. Qed.

Lemma emits_orElse (m : M A) (wrap : error -> error) :
  emits P m -> emits P (orElse m wrap).
Proof.
  intros H t. destruct (H t) as (new & Hnew & HP). exists new.
  split; [|exact HP]. unfold orElse. destruct (m t) as [[a|e] t']; exact Hnew.
Qed.

Lemma emits_defer (ev : event) (m : M A) :
  P ev -> emits P m -> emits P (defer ev m).
Proof.
  intros Hev H t. destruct (H t) as (new & Hnew & HP). exists (new ++ [ev]).
  unfold defer. destruct (m t) as [r t']. cbn in *. subst t'.
  split; [symmetry; apply app_assoc|]. apply Forall_app. split; [exact HP|].
  repeat constructor; exact Hev.
Qed.

Lemma emits_bind (m : M A) (k : A -> M B) :
  emits P m -> (forall a : A, emits P (k a)) -> emits P (m ≫= k).
Proof.
  intros Hm Hk t. destruct (Hm t) as (new & Hnew & HP).
  unfold mbind, M_bind. destruct (m t) as [[a|e] t']; cbn in *; subst t'.
  - destruct (Hk a (t ++ new)) as (new' & Hnew' & HP').
    exists (new ++ new'). rewrite Hnew'. split; [symmetry; apply app_assoc|].
    apply Forall_app. split; assumption.
  - exists new. split; [reflexivity|exact HP].
Qed.

End Emits.

Ltac emits_step :=
  match goal with
  | |- emits _ (_ ≫= _) => apply emits_bind; [|intros ?]
  | |- emits _ (orElse _ _) => apply emits_orElse
  | |- emits _ (defer _ _) => apply emits_defer; [exact I|]
  | |- emits _ (emit _) => apply emits_emit; exact I
  | |- emits _ (call _ _) => apply emits_call; exact I
  | |- emits _ (check _) => apply emits_check
  | |- emits _ (mret _) => apply emits_ret
  | |- emits _ (fail _) => apply emits_fail
  | |- emits _ (if ?b then _ else _) => destruct b
  | |- emits _ (let _ := _ in _) => cbv zeta
  end.

Lemma tarFiles_levels (E : Env) (archive : writer) (files : list string) :
  emits levelOk (tarFiles E archive files).
Proof.
  induction files as [|path rest IH]; cbn [tarFiles]; repeat emits_step.
  exact IH.
Qed.

Lemma zipFiles_levels (E : Env) (archive : writer) (files : list string) :
  emits levelOk (zipFiles E archive files).
Proof.
  induction files as [|path rest IH]; cbn [zipFiles]; repeat emits_step.
  exact IH.
Qed.

Lemma writeArchive_levels (E : Env) (p : Config) (artifact : SourceArtifact)
    (target : string) (newArtifact : Artifact) (output : writer) :
  emits levelOk (writeArchive E p artifact target newArtifact output).
Proof.
  unfold writeArchive, createTarArchive, createZipArchive. cbv zeta.
  repeat emits_step; first [apply tarFiles_levels | apply zipFiles_levels].
Qed.

(** A run of [PostProcess] with a stored level of at most 9 builds no
    compression writer with a level above 9, whatever the algorithm. *)
Lemma PostProcess_levels (E : Env) (p : Config) (artifact : SourceArtifact) :
  CompressionLevel p <= 9 -> emits levelOk (PostProcess E p artifact).
Proof.
  intros Hmax.
  assert (Hbz : bzipCFG_Level (CompressionLevel p) <= 9)
    by (unfold bzipCFG_Level; destruct (Z.gtb_spec (CompressionLevel p) 0); lia).
  assert (Hlz : (if CompressionLevel p >? 0 then CompressionLevel p else 0) <= 9)
    by (destruct (Z.gtb_spec (CompressionLevel p) 0); lia).
  unfold PostProcess.
  apply emits_bind; [apply emits_orElse, emits_pure|intros target].
  repeat emits_step.
  unfold withOutput, withWriter, makeBGZFWriter, makeBZIP2Writer, makeLZ4Writer,
    makeXZWriter, makePgzipWriter.
  repeat first
    [ apply writeArchive_levels
    | apply emits_call; cbn; first [exact I | assumption]
    | apply emits_emit; cbn; first [exact I | assumption]
    | emits_step ].
Qed.

(** C10: when [Configure] succeeds, the level it stored is at most 9 and is
    not 0: it is -1 when the caller gave 0 or -1, the caller's level capped at
    9 when that level was positive, and the caller's level unchanged when it
    was below -1.  This holds whatever algorithm the name selects: the
    level [makeBZIP2Writer] draws from the stored one lies between 1 and 9,
    and no compression writer built by [PostProcess] has a level above 9. *)
Theorem stored_level_invariant (E : Env) (decoded : Config * option error)
    (p : Config) :
  Configure E decoded = (p, None) ->
  let l := CompressionLevel (fst decoded) in
  let l' := CompressionLevel p in
  l' <= pgzip_BestCompression /\
  l' <> 0 /\
  ((l' = pgzip_DefaultCompression /\ (l = 0 \/ l = -1)) \/
   (1 <= l' <= 9 /\ 1 <= l /\ l' = Z.min l 9) \/
   (l' = l /\ l < -1)) /\
  1 <= bzipCFG_Level l' <= 9 /\
  (forall (artifact : SourceArtifact) (t : trace),
     exists new : trace,
       snd (PostProcess E p artifact t) = t ++ new /\ Forall levelOk new).
Proof.
  intros Hconf.
  assert (Hlevel :
    let l := CompressionLevel (fst decoded) in
    let l' := CompressionLevel p in
    l' <= 9 /\ l' <> 0 /\
    ((l' = -1 /\ (l = 0 \/ l = -1)) \/
     (1 <= l' <= 9 /\ 1 <= l /\ l' = Z.min l 9) \/
     (l' = l /\ l < -1))).
  { destruct decoded as [config [err|]]; [discriminate|].
    rewrite Configure_unfold in Hconf. injection Hconf as Hp _.
    cbn [fst]. cbv zeta. rewrite <- Hp. cbn [CompressionLevel setCompressionLevel].
    destruct (normalLevel_cases (CompressionLevel config)) as (H1 & H2 & H3 & H4).
    destruct (Z_lt_le_dec 9 (CompressionLevel config));
      [rewrite H1 by lia; lia|].
    destruct (Z_lt_le_dec (CompressionLevel config) (-1));
      [rewrite H4 by lia; lia|].
    destruct (Z_lt_le_dec (CompressionLevel config) 1);
      [rewrite H2 by lia; lia|].
    rewrite H3 by lia; lia. }
  cbv zeta in *. destruct Hlevel as (Hmax & Hnz & Hcases).
  unfold pgzip_BestCompression, pgzip_DefaultCompression.
  repeat (split; [assumption|]). split.
  - unfold bzipCFG_Level. destruct (Z.gtb_spec (CompressionLevel p) 0); lia.
  - intros artifact. apply PostProcess_levels, Hmax.
Qed.

Lemma stored_level_invariant_witness :
  CompressionLevel (fst (Configure sampleEnv (decodedAs "out.bzip2" "" 15)))
  <= pgzip_BestCompression.
Proof.
  apply (stored_level_invariant sampleEnv (decodedAs "out.bzip2" "" 15)
           (fst (Configure sampleEnv (decodedAs "out.bzip2" "" 15)))).
  reflexivity.
Defined.

(** * Further properties of the code *)

(** ** The pattern *)

Lemma append_String_r (acc : string) (c : ascii) (s : string) :
  (acc +:+ String c "") +:+ s = acc +:+ String c s.
Proof.
  induction acc as [|a acc IH]; [reflexivity|].
  change ((String a acc +:+ String c "") +:+ s)
    with (String a ((acc +:+ String c "") +:+ s)).
  rewrite IH. reflexivity.
Qed.

(** A run of class characters read after a dot is one match. *)
Lemma scan_run (tok : string) :
  forall acc : string,
    allLowerAlnum tok = true -> scan (Some acc) tok = flush (Some (acc +:+ tok)).
Proof.
  induction tok as [|c tok IH]; intros acc H.
  - rewrite append_empty_r. reflexivity.
  - cbn [allLowerAlnum] in H. apply andb_true_iff in H as [Hc Htok].
    cbn [scan]. rewrite Hc, IH by exact Htok. rewrite append_String_r. reflexivity.
Qed.

(** A name that ends with a dot and a token has that token as its last match. *)
Lemma scan_suffix (prefix tok : string) :
  isToken tok = true ->
  scan None (prefix +:+ "." +:+ tok) = scan None prefix ++ [tok].
Proof.
  intros H. change ("." +:+ tok) with (String "." tok).
  rewrite scan_app_dot. f_equal.
  destruct tok as [|c tok]; [discriminate|].
  rewrite scan_run by exact H. reflexivity.
Qed.

Lemma allLowerAlnum_snoc (acc : string) (c : ascii) :
  allLowerAlnum acc = true -> is_lower_alnum c = true ->
  allLowerAlnum (acc +:+ String c "") = true.
Proof.
  intros Hacc Hc. induction acc as [|a acc IH].
  - change ("" +:+ String c "") with (String c "").
    cbn [allLowerAlnum]. rewrite Hc. reflexivity.
  - cbn [allLowerAlnum] in Hacc. apply andb_true_iff in Hacc as [Ha Hacc].
    change (String a acc +:+ String c "") with (String a (acc +:+ String c "")).
    cbn [allLowerAlnum]. rewrite Ha, IH by exact Hacc. reflexivity.
Qed.

Lemma scan_tokens (s : string) :
  forall cur : option string,
    (forall acc, cur = Some acc -> allLowerAlnum acc = true) ->
    Forall (fun tok => isToken tok = true) (scan cur s).
Proof.
  assert (Hflush : forall cur : option string,
            (forall acc, cur = Some acc -> allLowerAlnum acc = true) ->
            Forall (fun tok => isToken tok = true) (flush cur)).
  { intros [[|c acc]|] H; cbn; repeat constructor.
    exact (H _ eq_refl). }
  assert (Hafter : forall c acc, after c = Some acc -> allLowerAlnum acc = true).
  { intros c acc. unfold after. destruct (Ascii.eqb c "."); [|discriminate].
    intros [= <-]. reflexivity. }
  induction s as [|c s IH]; intros cur Hcur; cbn [scan].
  - apply Hflush, Hcur.
  - destruct cur as [acc|].
    + destruct (is_lower_alnum c) eqn:Hc.
      * apply IH. intros acc' [= <-].
        apply allLowerAlnum_snoc; [apply Hcur; reflexivity | exact Hc].
      * apply Forall_app. split; [apply Hflush, Hcur | apply IH, Hafter].
    + apply IH, Hafter.
Qed.

(** X1: every capture group the pattern finds, in any string, is a non-empty
    run of lower-case letters and digits: a suffix written in upper case, or
    with any other character, is never a match as a whole. *)
Theorem matches_are_tokens (s : string) :
  Forall (fun submatch =>
            exists tok : string,
              submatch = ["." +:+ tok; tok] /\ isToken tok = true)
         (FindAllStringSubmatch s).
Proof.
  unfold FindAllStringSubmatch. apply Forall_fmap.
  eapply Forall_impl; [apply scan_tokens; discriminate|].
  intros tok H. exists tok. split; [reflexivity | exact H].
Qed.

(** ** The classifier, by the last two matches *)

Lemma at2_group (toks : list string) (i : nat) (tok : string) :
  toks !! i = Some tok ->
  at2 ((fun tok => ["." +:+ tok; tok]) <$> toks) i 1 = tok.
Proof.
  intros H. unfold at2. rewrite list_lookup_fmap, H. reflexivity.
Qed.

(** What the classifier does when there is a match: it depends on the last
    match and on the one before it only. *)
Lemma detectFromFilename_snoc (config : Config) (toks : list string)
    (lastItem : string) :
  tokens config = toks ++ [lastItem] ->
  detectFromFilename config
  = let config1 :=
      if String.eqb (default "" (last toks)) "tar"
      then setArchive "tar" config else config in
    if String.eqb lastItem "zip" || String.eqb lastItem "tar"
    then setArchive lastItem config1
    else match extensions !! lastItem with
         | Some algorithm => setAlgorithm algorithm config1
         | None => setArchive "tar" (setAlgorithm "pgzip" config1)
         end.
Proof.
  unfold tokens, detectFromFilename, FindAllStringSubmatch. intros ->.
  unfold detectFrom. rewrite length_fmap, length_app. cbn [length].
  destruct (Nat.eqb_spec (length toks + 1) 0) as [H|_]; [lia|].
  replace (length toks + 1 - 1)%nat with (length toks) by lia.
  rewrite (at2_group (toks ++ [lastItem]) (length toks) lastItem)
    by (apply list_lookup_middle; reflexivity).
  assert (Hpen :
    (if (length toks + 1 =? 1)%nat then ""
     else at2 ((fun tok => ["." +:+ tok; tok]) <$> toks ++ [lastItem])
            (length toks + 1 - 2) 1)
    = default "" (last toks)).
  { destruct toks as [|pen toks _] using rev_ind; [reflexivity|].
    rewrite length_app. cbn [length].
    destruct (Nat.eqb_spec (length toks + 1 + 1) 1) as [H|_]; [lia|].
    rewrite last_snoc. cbn [default].
    apply at2_group.
    replace (length toks + 1 + 1 - 2)%nat with (length toks) by lia.
    rewrite <- app_assoc. apply list_lookup_middle. reflexivity. }
  rewrite Hpen. reflexivity.
Qed.

Lemma tokens_cases (config : Config) :
  tokens config = [] \/
  exists (toks : list string) (lastItem : string),
    tokens config = toks ++ [lastItem] /\ isToken lastItem = true.
Proof.
  pose proof (scan_tokens (scanned config) None) as H.
  fold (tokens config) in H.
  destruct (tokens config) as [|lastItem toks _] using rev_ind; [left; reflexivity|].
  right. exists toks, lastItem. split; [reflexivity|].
  assert (H' := H ltac:(discriminate)).
  apply Forall_app in H' as [_ H']. inversion H'; assumption.
Qed.

(** The values of the table of extensions. *)
Lemma extensions_values (ext algorithm : string) :
  extensions !! ext = Some algorithm ->
  (ext, algorithm)
  ∈ [("tar", "tar"); ("zip", "zip"); ("gz", "pgzip"); ("lz4", "lz4");
     ("bgzf", "bgzf"); ("xz", "xz"); ("bzip2", "bzip2")].
Proof. intros H. apply elem_of_list_to_map_2 in H. exact H. Qed.

(** X2: when the last match is none of "zip", "tar" and the keys of the table
    of extensions, the classifier falls back to a gzip-compressed tar
    archive, whatever the match before it and whatever the configuration
    held. *)
Theorem unknown_suffix_default (config : Config) (toks : list string)
    (lastItem : string) :
  tokens config = toks ++ [lastItem] ->
  extensions !! lastItem = None ->
  kinds (detectFromFilename config) = ("tar", "pgzip").
Proof.
  intros Htok Hext. rewrite (detectFromFilename_snoc _ _ _ Htok). cbv zeta.
  assert (Hzip : String.eqb lastItem "zip" = false).
  { apply String.eqb_neq. intros ->. discriminate Hext. }
  assert (Htar : String.eqb lastItem "tar" = false).
  { apply String.eqb_neq. intros ->. discriminate Hext. }
  rewrite Hzip, Htar, Hext. reflexivity.
Qed.

Lemma unknown_suffix_default_witness :
  kinds (detectFromFilename (mkConfig "" "" "disk.tar.7z" "" 3 "zip" "xz"))
  = ("tar", "pgzip").
Proof.
  apply (unknown_suffix_default (mkConfig "" "" "disk.tar.7z" "" 3 "zip" "xz")
           ["tar"] "7z").
  - reflexivity.
  - reflexivity.
Defined.

(** X3: when the last match is a compression suffix (gz, lz4, bgzf, xz,
    bzip2), the classifier stores the algorithm of the table; the archive is
    "tar" when the match before is "tar" and is otherwise left as it was, so
    that "x.gz" alone asks for no archive. *)
Theorem compression_suffix (config : Config) (toks : list string)
    (lastItem algorithm : string) :
  tokens config = toks ++ [lastItem] ->
  lastItem <> "zip" -> lastItem <> "tar" ->
  extensions !! lastItem = Some algorithm ->
  Algorithm (detectFromFilename config) = algorithm /\
  (last toks = Some "tar" -> Archive (detectFromFilename config) = "tar") /\
  (last toks <> Some "tar" ->
   Archive (detectFromFilename config) = Archive config) /\
  knownAlgorithm (detectFromFilename config) = true.
Proof.
  intros Htok Hzip Htar Hext. rewrite (detectFromFilename_snoc _ _ _ Htok).
  cbv zeta. apply String.eqb_neq in Hzip, Htar. rewrite Hzip, Htar, Hext.
  cbn [orb].
  assert (Hknown : forall c : Config, knownAlgorithm (setAlgorithm algorithm c) = true).
  { intros c. apply extensions_values in Hext.
    apply String.eqb_neq in Hzip, Htar.
    unfold knownAlgorithm. cbn [Algorithm setAlgorithm].
    repeat (apply elem_of_cons in Hext as [[= -> ->] | Hext];
            [first [reflexivity | congruence]|]).
    inversion Hext. }
  split; [|split; [|split]].
  - destruct (String.eqb _ "tar"); reflexivity.
  - intros ->. reflexivity.
  - intros Hpen.
    destruct (String.eqb_spec (default "" (last toks)) "tar") as [H|_];
      [|reflexivity].
    destruct (last toks) as [pen|]; [|discriminate H].
    cbn in H. subst pen. contradiction Hpen; reflexivity.
  - apply Hknown.
Qed.

Lemma compression_suffix_witness :
  Algorithm (detectFromFilename (newConfig "disk.img.xz" "")) = "xz" /\
  Archive (detectFromFilename (newConfig "disk.img.xz" "")) = "".
Proof.
  destruct (compression_suffix (newConfig "disk.img.xz" "") ["img"] "xz" "xz")
    as (Halg & _ & Harch & _).
  - reflexivity.
  - discriminate.
  - discriminate.
  - reflexivity.
  - split; [exact Halg|]. apply Harch. discriminate.
Defined.

(** X4: a format that is set is scanned after the output path, as its last
    suffixes.  When the format is one token it is the last match, whatever the
    path: "zip" and "tar" then name the archive, and a token outside the table
    of extensions gives the default pair. *)
Theorem format_is_final_suffix (config : Config) :
  Format config <> "" ->
  tokens config = scan None (OutputPath config) ++ scan (Some "") (Format config) /\
  (isToken (Format config) = true ->
   tokens config = scan None (OutputPath config) ++ [Format config] /\
   (Format config = "zip" \/ Format config = "tar" ->
    Archive (detectFromFilename config) = Format config /\
    Algorithm (detectFromFilename config) = Algorithm config) /\
   (extensions !! Format config = None ->
    kinds (detectFromFilename config) = ("tar", "pgzip"))).
Proof.
  intros Hfmt.
  assert (Hscan : scanned config = OutputPath config +:+ String "." (Format config)).
  { unfold scanned. apply String_eqb_empty in Hfmt. rewrite Hfmt.
    apply Sprintf_dot. }
  assert (Htokens : tokens config
                    = scan None (OutputPath config) ++ scan (Some "") (Format config)).
  { unfold tokens. rewrite Hscan. apply scan_app_dot. }
  split; [exact Htokens|]. intros Htok.
  assert (Hlast : tokens config = scan None (OutputPath config) ++ [Format config]).
  { rewrite Htokens. f_equal. destruct (Format config) as [|c f]; [discriminate|].
    rewrite scan_run by exact Htok. reflexivity. }
  split; [exact Hlast|]. split.
  - intros Hkind. rewrite (detectFromFilename_snoc _ _ _ Hlast). cbv zeta.
    assert (Hb : String.eqb (Format config) "zip"
                 || String.eqb (Format config) "tar" = true)
      by (destruct Hkind as [-> | ->]; reflexivity).
    rewrite Hb.
    destruct (String.eqb (default "" (last (scan None (OutputPath config)))) "tar");
      split; reflexivity.
  - intros Hext. exact (unknown_suffix_default _ _ _ Hlast Hext).
Qed.

Lemma format_is_final_suffix_witness :
  tokens (newConfig "build/disk.img.gz" "zip") = ["img"; "gz"; "zip"] /\
  Archive (detectFromFilename (newConfig "build/disk.img.gz" "zip")) = "zip" /\
  Algorithm (detectFromFilename (newConfig "build/disk.img.gz" "zip")) = "".
Proof.
  destruct (format_is_final_suffix (newConfig "build/disk.img.gz" "zip"))
    as (_ & H); [discriminate|].
  destruct (H eq_refl) as (Htok & Hkind & _).
  split; [exact Htok|]. apply Hkind. left; reflexivity.
Defined.

(** X5: from a configuration that holds no archive and no algorithm yet, the
    classifier yields one of twelve pairs only: a tar or zip archive without
    compression, or one of the five algorithms, alone or over a tar archive.
    It never yields a zip archive with compression, nor neither archive nor
    compression. *)
Theorem classify_range (output format : string) :
  In (classify output format)
     [("tar", ""); ("zip", "");
      ("", "pgzip"); ("", "lz4"); ("", "bgzf"); ("", "xz"); ("", "bzip2");
      ("tar", "pgzip"); ("tar", "lz4"); ("tar", "bgzf"); ("tar", "xz");
      ("tar", "bzip2")].
Proof.
  unfold classify. set (config := newConfig output format).
  destruct (tokens_cases config) as [Hnone | (toks & lastItem & Htok & _)].
  - unfold detectFromFilename, FindAllStringSubmatch.
    fold (tokens config). rewrite Hnone. subst config. cbn. auto 15.
  - rewrite (detectFromFilename_snoc _ _ _ Htok). cbv zeta.
    destruct (String.eqb_spec lastItem "zip") as [->|Hzip].
    { destruct (String.eqb (default "" (last toks)) "tar"); subst config; cbn; auto 15. }
    destruct (String.eqb_spec lastItem "tar") as [->|Htar].
    { destruct (String.eqb (default "" (last toks)) "tar"); subst config; cbn; auto 15. }
    cbn [orb]. destruct (extensions !! lastItem) as [algorithm|] eqn:Hext.
    + apply extensions_values in Hext.
      repeat (apply elem_of_cons in Hext as [[= -> ->] | Hext];
              [first [congruence | destruct (String.eqb (default "" (last toks)) "tar"); subst config; cbn; auto 15]|]).
      inversion Hext.
    + destruct (String.eqb (default "" (last toks)) "tar"); subst config; cbn; auto 15.
Qed.

(** The classifier reads the path and the format only, and writes the archive
    and the algorithm only. *)
Lemma detectFrom_fields (result : list (list string)) (config : Config) :
  PackerBuildName (detectFrom result config) = PackerBuildName config /\
  PackerBuilderType (detectFrom result config) = PackerBuilderType config /\
  OutputPath (detectFrom result config) = OutputPath config /\
  Format (detectFrom result config) = Format config /\
  CompressionLevel (detectFrom result config) = CompressionLevel config.
Proof.
  unfold detectFrom. destruct (length result =? 0)%nat; [repeat split|].
  cbv zeta.
  match goal with
  | |- context [if String.eqb ?x "tar" then setArchive "tar" config else config] =>
      destruct (String.eqb x "tar")
  end;
  destruct (_ || _); try (repeat split; fail);
  destruct (extensions !! _); repeat split.
Qed.

(** X6: the classifier changes no setting but the archive and the algorithm,
    and running it again on its own result changes nothing. *)
Theorem detectFromFilename_idempotent (config : Config) :
  (PackerBuildName (detectFromFilename config) = PackerBuildName config /\
   PackerBuilderType (detectFromFilename config) = PackerBuilderType config /\
   OutputPath (detectFromFilename config) = OutputPath config /\
   Format (detectFromFilename config) = Format config /\
   CompressionLevel (detectFromFilename config) = CompressionLevel config) /\
  detectFromFilename (detectFromFilename config) = detectFromFilename config.
Proof.
  split; [apply detectFrom_fields|].
  assert (Hscan : scanned (detectFromFilename config) = scanned config).
  { destruct (detectFrom_fields (FindAllStringSubmatch (scanned config)) config)
      as (_ & _ & Hout & Hfmt & _).
    unfold scanned, detectFromFilename. rewrite Hout, Hfmt. reflexivity. }
  unfold detectFromFilename at 1. rewrite Hscan. unfold detectFromFilename.
  generalize (FindAllStringSubmatch (scanned config)). intros result.
  unfold detectFrom. destruct (length result =? 0)%nat; [reflexivity|].
  cbv zeta.
  match goal with
  | |- context [if String.eqb ?x "tar" then setArchive "tar" config else config] =>
      destruct (String.eqb x "tar")
  end;
  destruct (_ || _); try reflexivity; destruct (extensions !! _); reflexivity.
Qed.

(** ** Configure *)

(** X7: [Configure] returns no error exactly when decoding raised none and
    the output template is valid.  A decoding error is returned as it is, the
    configuration untouched; an invalid template gives a [MultiError] holding
    that one error, the level being normalised and the name classified all the
    same.  The configuration stored never depends on the environment. *)
Theorem Configure_outcome (E : Env) (config : Config) (derr : option error) :
  (snd (Configure E (config, derr)) = None <->
   derr = None /\
   interpolate_Validate E (OutputPath (withDefaultOutput config)) = None) /\
  (forall err : error,
     derr = Some err -> Configure E (config, derr) = (config, Some err)) /\
  (forall err : error,
     derr = None ->
     interpolate_Validate E (OutputPath (withDefaultOutput config)) = Some err ->
     snd (Configure E (config, derr))
     = Some (MultiError
               [Errorf "Error parsing target template: %s" [Str (Error err)]])) /\
  (forall E' : Env,
     derr = None ->
     fst (Configure E' (config, derr)) = fst (Configure E (config, derr)) /\
     fst (Configure E (config, derr))
     = setCompressionLevel (normalLevel (CompressionLevel config))
         (detectFromFilename (withDefaultOutput config))).
Proof.
  split; [|split; [|split]].
  - destruct derr as [err|].
    + split; [discriminate | intros [H _]; discriminate H].
    + rewrite Configure_unfold. cbn [snd].
      destruct (interpolate_Validate E _).
      * split; [discriminate | intros [_ H]; discriminate H].
      * split; [auto | reflexivity].
  - intros err ->. reflexivity.
  - intros err -> H. rewrite Configure_unfold. cbn [snd]. rewrite H. reflexivity.
  - intros E' ->. rewrite !Configure_unfold. split; reflexivity.
Qed.

Lemma Configure_outcome_witness :
  snd (Configure sampleEnv (newConfig "out.gz" "", Some (External "bad key")))
  = Some (External "bad key") /\
  snd (Configure sampleEnv (newConfig "out.gz" "", None)) = None.
Proof.
  split.
  - apply (f_equal snd
             (proj1 (proj2 (Configure_outcome sampleEnv (newConfig "out.gz" "")
                              (Some (External "bad key"))))
                (External "bad key") eq_refl)).
  - apply (proj1 (Configure_outcome sampleEnv (newConfig "out.gz" "") None)).
    split; reflexivity.
Defined.

(** X8: an empty output path is replaced by the template
    "packer_{{.BuildName}}_{{.BuilderType}}", in which the pattern finds no
    match: with no format either, the run builds a gzip-compressed tar
    archive.  An output path that is set is kept as it is. *)
Theorem default_output_path (E : Env) (config : Config) :
  (OutputPath config = "" ->
   OutputPath (fst (Configure E (config, None)))
   = "packer_{{.BuildName}}_{{.BuilderType}}" /\
   (Format config = "" ->
    kinds (fst (Configure E (config, None))) = ("tar", "pgzip"))) /\
  (OutputPath config <> "" ->
   OutputPath (fst (Configure E (config, None))) = OutputPath config).
Proof.
  rewrite Configure_unfold. cbn [fst].
  pose proof (detectFrom_fields
                (FindAllStringSubmatch (scanned (withDefaultOutput config)))
                (withDefaultOutput config)) as (_ & _ & Hout & _).
  fold (detectFromFilename (withDefaultOutput config)) in Hout.
  split.
  - intros Hempty.
    assert (Hwith : withDefaultOutput config
                    = setOutputPath "packer_{{.BuildName}}_{{.BuilderType}}" config)
      by (unfold withDefaultOutput; rewrite Hempty; reflexivity).
    split.
    + cbn [OutputPath setCompressionLevel]. rewrite Hout, Hwith. reflexivity.
    + intros Hfmt. rewrite Hwith. unfold kinds, detectFromFilename, scanned.
      cbn [Format OutputPath setOutputPath]. rewrite Hfmt. reflexivity.
  - intros Hset. cbn [OutputPath setCompressionLevel]. rewrite Hout.
    unfold withDefaultOutput. apply String_eqb_empty in Hset. rewrite Hset.
    reflexivity.
Qed.

Lemma default_output_path_witness :
  kinds (fst (Configure sampleEnv (mkConfig "web" "qemu" "" "" 5 "zip" "xz", None)))
  = ("tar", "pgzip").
Proof.
  apply (proj1 (default_output_path sampleEnv
                  (mkConfig "web" "qemu" "" "" 5 "zip" "xz"))).
  - reflexivity.
  - reflexivity.
Defined.

(** ** The archive writers *)

Ltac run_calls H :=
  unfold mbind, M_bind, mret, M_ret, orElse, call, check, emit, fail in H;
  repeat match type of H with
  | context [match ?o with Some _ => _ | None => _ end] => destruct o eqn:?
  end.

Lemma tarFiles_ok (E : Env) (archive : writer) (files : list string) :
  forall t t' : trace,
    tarFiles E archive files t = (Ok (), t') ->
    t' = t ++ concat (map (tarEntry archive) files) ++ map CloseFile (rev files).
Proof.
  induction files as [|path rest IH]; intros t t' H.
  - injection H as <-. cbn. rewrite app_nil_r. reflexivity.
  - cbn [tarFiles] in H. unfold defer in H. run_calls H; try discriminate H.
    destruct (tarFiles E archive rest _) as [r t1] eqn:Hrest.
    injection H as -> <-. apply IH in Hrest. subst t1.
    cbn [map concat rev]. rewrite map_app. cbn [map tarEntry].
    rewrite <- !app_assoc. reflexivity.
Qed.

(** X9: when [createTarArchive] succeeds, it has archived every file in the
    order given, each header written right before the body it announces, has
    then closed the files, the last one first, and the archive at the end; it
    does so for no file at all as well. *)
Theorem createTarArchive_ok (E : Env) (files : list string) (output : writer)
    (t t' : trace) :
  createTarArchive E files output t = (Ok (), t') ->
  t' = t ++ [NewWriter (TarWriter output)]
         ++ concat (map (tarEntry (TarWriter output)) files)
         ++ map CloseFile (rev files)
         ++ [Close (TarWriter output)].
Proof.
  unfold createTarArchive, defer, mbind, M_bind, emit. intros H.
  destruct (tarFiles E (TarWriter output) files _) as [r t1] eqn:Hloop.
  injection H as -> <-. apply tarFiles_ok in Hloop. subst t1.
  rewrite <- !app_assoc. reflexivity.
Qed.

Lemma createTarArchive_ok_witness :
  snd (createTarArchive sampleEnv ["a"; "b"] (File "out.tar") [])
  = [NewWriter (TarWriter (File "out.tar"));
     Open "a"; Stat "a"; WriteHeader (TarWriter (File "out.tar")) "a";
     Copy (TarWriter (File "out.tar")) "a";
     Open "b"; Stat "b"; WriteHeader (TarWriter (File "out.tar")) "b";
     Copy (TarWriter (File "out.tar")) "b";
     CloseFile "b"; CloseFile "a"; Close (TarWriter (File "out.tar"))].
Proof.
  apply (createTarArchive_ok sampleEnv ["a"; "b"] (File "out.tar") []).
  reflexivity.
Defined.

Lemma tarFiles_err (E : Env) (archive : writer) (files : list string) :
  forall (t t' : trace) (e : error),
    tarFiles E archive files t = (Err e, t') ->
    exists (done : list string) (path : string) (rest : list string)
           (k : nat) (format : string) (err0 : error),
      files = done ++ path :: rest /\
      (k < 4)%nat /\
      e = Errorf format [Str path; Str (Error err0)] /\
      In format tarFormats /\
      t' = t ++ concat (map (tarEntry archive) done)
             ++ take k (tarEntry archive path)
             ++ map CloseFile (rev (done ++ if (k =? 0)%nat then [] else [path])).
Proof.
  induction files as [|path rest IH]; intros t t' e H; [discriminate H|].
  cbn [tarFiles] in H. unfold defer in H. run_calls H.
  6: { destruct (tarFiles E archive rest _) as [r t1] eqn:Hrest.
       injection H as -> <-.
       apply IH in Hrest
         as (done & path' & rest' & k & format & err0 & -> & Hk & -> & Hfmt & ->).
       exists (path :: done), path', rest', k, format, err0.
       repeat split; try assumption.
       cbn [map concat rev app tarEntry]. rewrite map_app. cbn [map].
       rewrite <- !app_assoc. reflexivity. }
  all: injection H as <- <-.
  - exists [], path, rest, 0%nat. eexists _, _.
    repeat split; [lia | cbn; auto 6 | cbn; now rewrite app_nil_r].
  - exists [], path, rest, 1%nat. eexists _, _.
    repeat split; [lia | cbn; auto 6 | cbn; now rewrite <- app_assoc].
  - exists [], path, rest, 2%nat. eexists _, _.
    repeat split; [lia | cbn; auto 6 | cbn; now rewrite <- !app_assoc].
  - exists [], path, rest, 2%nat. eexists _, _.
    repeat split; [lia | cbn; auto 6 | cbn; now rewrite <- !app_assoc].
  - exists [], path, rest, 3%nat. eexists _, _.
    repeat split; [lia | cbn; auto 6 | cbn; now rewrite <- !app_assoc].
Qed.

(** X10: when [createTarArchive] fails, it fails at one file of the list: the
    error is one of its five errors and names that file; the files before it
    are archived in full, the file itself in part at most, and no later file
    is touched; every file opened and the archive are closed all the same. *)
Theorem createTarArchive_err (E : Env) (files : list string) (output : writer)
    (t t' : trace) (e : error) :
  createTarArchive E files output t = (Err e, t') ->
  exists (done : list string) (path : string) (rest : list string)
         (k : nat) (format : string) (err0 : error),
    files = done ++ path :: rest /\
    (k < 4)%nat /\
    e = Errorf format [Str path; Str (Error err0)] /\
    In format tarFormats /\
    t' = t ++ [NewWriter (TarWriter output)]
           ++ concat (map (tarEntry (TarWriter output)) done)
           ++ take k (tarEntry (TarWriter output) path)
           ++ map CloseFile (rev (done ++ if (k =? 0)%nat then [] else [path]))
           ++ [Close (TarWriter output)].
Proof.
  unfold createTarArchive, defer, mbind, M_bind, emit. intros H.
  destruct (tarFiles E (TarWriter output) files _) as [r t1] eqn:Hloop.
  injection H as -> <-.
  apply tarFiles_err in Hloop
    as (done & path & rest & k & format & err0 & Hfiles & Hk & He & Hfmt & ->).
  exists done, path, rest, k, format, err0.
  repeat split; try assumption. rewrite <- !app_assoc. reflexivity.
Qed.

Lemma createTarArchive_err_witness :
  exists (done : list string) (path : string) (rest : list string),
    ["a"; "b"; "c"] = done ++ path :: rest /\
    exists (format : string) (err0 : error),
      fst (createTarArchive (sampleEnvWithout "b") ["a"; "b"; "c"]
             (File "out.tar") [])
      = Err (Errorf format [Str path; Str (Error err0)]).
Proof.
  destruct (createTarArchive_err (sampleEnvWithout "b") ["a"; "b"; "c"]
              (File "out.tar") []
              (snd (createTarArchive (sampleEnvWithout "b") ["a"; "b"; "c"]
                      (File "out.tar") []))
              (Errorf "Unable to read file %s: %s"
                 [Str "b"; Str "no such file or directory"]))
    as (done & path & rest & k & format & err0 & Hfiles & _ & He & _).
  - reflexivity.
  - exists done, path, rest. split; [exact Hfiles|].
    exists format, err0. rewrite <- He. reflexivity.
Defined.

Lemma zipFiles_ok (E : Env) (archive : writer) (files : list string) :
  forall t t' : trace,
    zipFiles E archive files t = (Ok (), t') ->
    t' = t ++ concat (map (zipEntry E archive) files)
           ++ map CloseFile (rev (map (filepath_ToSlash E) files)).
Proof.
  induction files as [|path rest IH]; intros t t' H.
  - injection H as <-. cbn. rewrite app_nil_r. reflexivity.
  - cbn [zipFiles] in H. cbv zeta in H. unfold defer in H.
    run_calls H; try discriminate H.
    destruct (zipFiles E archive rest _) as [r t1] eqn:Hrest.
    injection H as -> <-. apply IH in Hrest. subst t1.
    cbn [map concat rev]. rewrite map_app. cbn [map]. unfold zipEntry at 2.
    cbv zeta. rewrite <- !app_assoc. reflexivity.
Qed.

(** X11: when [createZipArchive] succeeds, it has added every file in the
    order given, under its name with the separators turned into slashes, which
    is also the name it opened the file by; it has then closed the files, the
    last one first, and the archive at the end. *)
Theorem createZipArchive_ok (E : Env) (files : list string) (output : writer)
    (t t' : trace) :
  createZipArchive E files output t = (Ok (), t') ->
  t' = t ++ [NewWriter (ZipWriter output)]
         ++ concat (map (zipEntry E (ZipWriter output)) files)
         ++ map CloseFile (rev (map (filepath_ToSlash E) files))
         ++ [Close (ZipWriter output)].
Proof.
  unfold createZipArchive, defer, mbind, M_bind, emit. intros H.
  destruct (zipFiles E (ZipWriter output) files _) as [r t1] eqn:Hloop.
  injection H as -> <-. apply zipFiles_ok in Hloop. subst t1.
  rewrite <- !app_assoc. reflexivity.
Qed.

Lemma createZipArchive_ok_witness :
  snd (createZipArchive sampleEnvBackslash ["out\disk.img"] (File "out.zip") [])
  = [NewWriter (ZipWriter (File "out.zip"));
     Open "out/disk.img";
     NewWriter (ZipEntry (ZipWriter (File "out.zip")) "out/disk.img");
     Copy (ZipEntry (ZipWriter (File "out.zip")) "out/disk.img") "out/disk.img";
     CloseFile "out/disk.img"; Close (ZipWriter (File "out.zip"))].
Proof.
  apply (createZipArchive_ok sampleEnvBackslash ["out\disk.img"]
           (File "out.zip") []).
  reflexivity.
Defined.

(** ** The errors of PostProcess *)

Section Raises.

Context {A B : Type} (P : error -> Prop).

Lemma raises_ret (a : A) : raises P (mret a).
Proof. intros t e H. discriminate H. Qed.

Lemma raises_emit (ev : event) : raises P (emit ev).
Proof. intros t e H. discriminate H. Qed.

Lemma raises_fail (e : error) : P e -> raises P (@fail A e).
Proof. intros H t e' [= <-]. exact H. Qed.

Lemma raises_orElse (m : M A) (wrap : error -> error) :
  (forall e : error, P (wrap e)) -> raises P (orElse m wrap).
Proof.
  intros H t e. unfold orElse. destruct (m t) as [[a|e'] t']; [discriminate|].
  intros [= <-]. apply H.
Qed.

Lemma raises_defer (ev : event) (m : M A) : raises P m -> raises P (defer ev m).
Proof.
  intros H t e. unfold defer. specialize (H t e).
  destruct (m t) as [r t']. exact H.
Qed.

Lemma raises_bind (m : M A) (k : A -> M B) :
  raises P m -> (forall a : A, raises P (k a)) -> raises P (m ≫= k).
Proof.
  intros Hm Hk t e. unfold mbind, M_bind. specialize (Hm t e).
  destruct (m t) as [[a|e'] t'].
  - apply Hk.
  - intros [= <-]. apply Hm. reflexivity.
Qed.

End Raises.

Ltac formatted_tac :=
  intros; eexists _, _; split; [reflexivity|];
  unfold postProcessFormats, setupFormats, errTmpl; cbn; auto 12.

Ltac raises_step :=
  match goal with
  | |- raises _ (_ ≫= _) => apply raises_bind; [|intros ?]
  | |- raises _ (orElse _ _) => apply raises_orElse; formatted_tac
  | |- raises _ (defer _ _) => apply raises_defer
  | |- raises _ (emit _) => apply raises_emit
  | |- raises _ (mret _) => apply raises_ret
  | |- raises _ (fail _) => apply raises_fail; formatted_tac
  | |- raises _ (if ?b then _ else _) => destruct b
  | |- raises _ (let _ := _ in _) => cbv zeta
  end.

(** X12: every error [PostProcess] returns is one it built itself with
    [fmt.Errorf], from one of nine formats: it never hands back an error of a
    library or of the operating system as it got it, nor [ErrWrongInputCount]
    or [ErrInvalidCompressionLevel] themselves; their messages are folded into
    its own. *)
Theorem PostProcess_errors (E : Env) (p : Config) (artifact : SourceArtifact)
    (t : trace) (e : error) :
  fst (PostProcess E p artifact t) = Err e ->
  formatted postProcessFormats e /\
  e <> ErrWrongInputCount /\ e <> ErrInvalidCompressionLevel /\
  (forall msg : string, e <> External msg).
Proof.
  intros H.
  assert (Hfmt : formatted postProcessFormats e).
  { revert t e H. change (raises (formatted postProcessFormats)
                            (PostProcess E p artifact)).
    unfold PostProcess, withOutput, withWriter, writeArchive, wrongInputCount.
    repeat raises_step. }
  split; [exact Hfmt|].
  destruct Hfmt as (format & args & -> & _). repeat split; intros; discriminate.
Qed.

Lemma PostProcess_errors_witness :
  formatted postProcessFormats
    (Errorf errTmpl
       [Str "pgzip"; Str (Error ErrInvalidCompressionLevel)]).
Proof.
  apply (PostProcess_errors sampleEnv
           (setCompressionLevel (-7) (setAlgorithm "pgzip" (newConfig "out.gz" "")))
           (mkSource ["a"] None) []).
  reflexivity.
Defined.

(** ** Files and writers are closed again *)

Lemma runStack_app (held : list (writer + string)) (a b : trace) :
  runStack held (a ++ b)
  = match runStack held a with
    | Some held' => runStack held' b
    | None => None
    end.
Proof.
  revert held. induction a as [|ev a IH]; intros held; [reflexivity|].
  cbn [app runStack]. destruct (step held ev); [apply IH | reflexivity].
Qed.

Lemma step_Close (held : list (writer + string)) (w : writer) :
  step (inl w :: held) (Close w) = Some held.
Proof. cbn. destruct (decide (w = w)); [reflexivity | contradiction]. Qed.

Lemma step_CloseFile (held : list (writer + string)) (name : string) :
  step (inr name :: held) (CloseFile name) = Some held.
Proof. cbn. destruct (decide (name = name)); [reflexivity | contradiction]. Qed.

Section Bracketed.

Context {A B : Type}.

Lemma bracketed_nil (m : M A) :
  (forall t : trace, snd (m t) = t) -> bracketed m.
Proof.
  intros H t. exists []. rewrite app_nil_r. split; [apply H | reflexivity].
Qed.

Lemma bracketed_ret (a : A) : bracketed (mret a).
Proof. apply bracketed_nil. reflexivity. Qed.

Lemma bracketed_fail (e : error) : bracketed (@fail A e).
Proof. apply bracketed_nil. reflexivity. Qed.

Lemma bracketed_emit (ev : event) : neutral ev -> bracketed (emit ev).
Proof.
  intros H t. exists [ev]. split; [reflexivity|]. intros held. cbn. rewrite H.
  reflexivity.
Qed.

Lemma bracketed_call (outcome : trace -> option error) (ev : event) :
  neutral ev -> bracketed (call outcome ev).
Proof.
  intros H t. unfold call. destruct (outcome t).
  - exists []. rewrite app_nil_r. split; reflexivity.
  - exists [ev]. split; [reflexivity|]. intros held. cbn. rewrite H. reflexivity.
Qed.

Lemma bracketed_check (outcome : trace -> option error) :
  bracketed (check outcome).
Proof.
  intros t. exists []. rewrite app_nil_r. unfold check.
  destruct (outcome t); (split; reflexivity).
Qed.

Lemma bracketed_orElse (m : M A) (wrap : error -> error) :
  bracketed m -> bracketed (orElse m wrap).
Proof.
  intros H t. destruct (H t) as (new & Hnew & Hrun). exists new.
  split; [|exact Hrun]. unfold orElse. destruct (m t) as [[a|e] t']; exact Hnew.
Qed.

Lemma bracketed_bind (m : M A) (k : A -> M B) :
  bracketed m -> (forall a : A, bracketed (k a)) -> bracketed (m ≫= k).
Proof.
  intros Hm Hk t. destruct (Hm t) as (new & Hnew & Hrun).
  unfold mbind, M_bind. destruct (m t) as [[a|e] t']; cbn in *; subst t'.
  - destruct (Hk a (t ++ new)) as (new' & Hnew' & Hrun').
    exists (new ++ new'). rewrite Hnew'. split; [symmetry; apply app_assoc|].
    intros held. rewrite runStack_app, Hrun. apply Hrun'.
  - exists new. split; [reflexivity | exact Hrun].
Qed.

(** Open, then work with the closing deferred: the scope of one file or
    writer. *)
Lemma bracketed_scope (acquire : M unit) (opened closed : event)
    (r : writer + string) (body : M A) :
  (forall t : trace,
     (exists e, acquire t = (Err e, t)) \/ acquire t = (Ok (), t ++ [opened])) ->
  (forall held, step held opened = Some (r :: held)) ->
  (forall held, step (r :: held) closed = Some held) ->
  bracketed body ->
  bracketed (acquire;; defer closed body).
Proof.
  intros Hacq Hopen Hclose Hbody t. unfold mbind, M_bind, defer.
  destruct (Hacq t) as [[e ->] | ->].
  - exists []. rewrite app_nil_r. split; reflexivity.
  - destruct (Hbody (t ++ [opened])) as (new & Hnew & Hrun).
    destruct (body (t ++ [opened])) as [res t']. cbn in *. subst t'.
    exists ([opened] ++ new ++ [closed]). split; [now rewrite <- !app_assoc|].
    intros held. cbn [app runStack]. rewrite Hopen, runStack_app, Hrun.
    cbn [runStack]. rewrite Hclose. reflexivity.
Qed.

End Bracketed.

Lemma acquire_call (outcome : trace -> option error) (ev : event)
    (wrap : error -> error) (t : trace) :
  (exists e, orElse (call outcome ev) wrap t = (Err e, t)) \/
  orElse (call outcome ev) wrap t = (Ok (), t ++ [ev]).
Proof.
  unfold orElse, call. destruct (outcome t); [left; eauto | right; reflexivity].
Qed.

Ltac bracketed_step :=
  match goal with
  | |- bracketed (orElse (call _ (Open ?n)) _ ;; defer _ _) =>
      apply (bracketed_scope _ (Open n) (CloseFile n) (inr n));
      [apply acquire_call | reflexivity | intros ?; apply step_CloseFile |]
  | |- bracketed (_ ≫= _) => apply bracketed_bind; [|intros ?]
  | |- bracketed (orElse _ _) => apply bracketed_orElse
  | |- bracketed (emit _) => apply bracketed_emit; intros ?; reflexivity
  | |- bracketed (call _ _) => apply bracketed_call; intros ?; reflexivity
  | |- bracketed (check _) => apply bracketed_check
  | |- bracketed (mret _) => apply bracketed_ret
  | |- bracketed (fail _) => apply bracketed_fail
  | |- bracketed (if ?b then _ else _) => destruct b
  | |- bracketed (let _ := _ in _) => cbv zeta
  end.

Lemma tarFiles_bracketed (E : Env) (archive : writer) (files : list string) :
  bracketed (tarFiles E archive files).
Proof.
  induction files as [|path rest IH]; cbn [tarFiles]; repeat bracketed_step.
  exact IH.
Qed.

Lemma zipFiles_bracketed (E : Env) (archive : writer) (files : list string) :
  bracketed (zipFiles E archive files).
Proof.
  induction files as [|path rest IH]; cbn [zipFiles]; repeat bracketed_step.
  exact IH.
Qed.

Lemma createTarArchive_bracketed (E : Env) (files : list string) (output : writer) :
  bracketed (createTarArchive E files output).
Proof.
  unfold createTarArchive. cbv zeta.
  apply (bracketed_scope _ (NewWriter (TarWriter output))
           (Close (TarWriter output)) (inl (TarWriter output))).
  - intros t. right. reflexivity.
  - reflexivity.
  - intros held. apply step_Close.
  - apply tarFiles_bracketed.
Qed.

Lemma createZipArchive_bracketed (E : Env) (files : list string) (output : writer) :
  bracketed (createZipArchive E files output).
Proof.
  unfold createZipArchive. cbv zeta.
  apply (bracketed_scope _ (NewWriter (ZipWriter output))
           (Close (ZipWriter output)) (inl (ZipWriter output))).
  - intros t. right. reflexivity.
  - reflexivity.
  - intros held. apply step_Close.
  - apply zipFiles_bracketed.
Qed.

Lemma writeArchive_bracketed (E : Env) (p : Config) (artifact : SourceArtifact)
    (target : string) (newArtifact : Artifact) (output : writer) :
  bracketed (writeArchive E p artifact target newArtifact output).
Proof.
  unfold writeArchive. cbv zeta.
  repeat first
    [ apply createTarArchive_bracketed
    | apply createZipArchive_bracketed
    | bracketed_step ].
Qed.

Lemma withWriter_bracketed {A} (p : Config) (message : string) (make : M writer)
    (rest : writer -> M A) :
  builds make -> (forall w, bracketed (rest w)) ->
  bracketed (withWriter p message make rest).
Proof.
  intros Hmake Hrest t. unfold withWriter, mbind, M_bind, emit, orElse, defer.
  destruct (Hmake (t ++ [Say message])) as [[e ->] | (w & -> & Hw)].
  - exists [Say message]. split; reflexivity.
  - destruct (Hrest w ((t ++ [Say message]) ++ [NewWriter w]))
      as (new & Hnew & Hrun).
    destruct (rest w _) as [res t']. cbn in *. subst t'.
    exists ([Say message; NewWriter w] ++ new ++ [Close w]).
    split; [now rewrite <- !app_assoc|].
    intros held. cbn [app runStack step]. rewrite Hw, runStack_app, Hrun.
    cbn [runStack]. rewrite step_Close. reflexivity.
Qed.

Lemma factories_build (E : Env) (output : writer) (level : Z) :
  builds (makeBGZFWriter E output level) /\
  builds (makeBZIP2Writer E output level) /\
  builds (makeLZ4Writer E output level) /\
  builds (makeXZWriter E output) /\
  builds (makePgzipWriter E output level).
Proof.
  repeat split; intros t;
    unfold makeBGZFWriter, makeBZIP2Writer, makeLZ4Writer, makeXZWriter,
      makePgzipWriter, mbind, M_bind, mret, M_ret, orElse, call, emit;
    repeat match goal with
    | |- context [match ?o with Some _ => _ | None => _ end] => destruct o
    end;
    first [left; eexists; reflexivity
          | right; eexists; split; reflexivity].
Qed.

(** X13: in every run of [PostProcess], failed or not, what is opened (the
    output file, the compression writer, the archive writer, the input files)
    is closed again before the return, the last opened first, and nothing is
    closed that is not open. *)
Theorem PostProcess_closes_all (E : Env) (p : Config) (artifact : SourceArtifact)
    (t : trace) :
  exists new : trace,
    snd (PostProcess E p artifact t) = t ++ new /\
    forall held : list (writer + string), runStack held new = Some held.
Proof.
  revert t. change (bracketed (PostProcess E p artifact)).
  unfold PostProcess.
  apply bracketed_bind;
    [apply bracketed_orElse, bracketed_nil; reflexivity | intros target].
  apply bracketed_bind; [bracketed_step | intros _].
  apply bracketed_bind; [repeat bracketed_step | intros _].
  apply (bracketed_scope _ (Create target) (Close (File target))
           (inl (File target)));
    [apply acquire_call | reflexivity | intros held; apply step_Close |].
  destruct (factories_build E (File target) (CompressionLevel p))
    as (Hbgzf & Hbzip2 & Hlz4 & Hxz & Hpgzip).
  unfold withOutput.
  repeat match goal with
  | |- bracketed (if ?b then _ else _) => destruct b
  end;
  first [apply withWriter_bracketed;
           [assumption | intros w; apply writeArchive_bracketed]
        | apply writeArchive_bracketed].
Qed.

(** ** A successful run *)

Section Ensures.

Context {A B : Type} (Q : B -> trace -> Prop).

Hypothesis Q_grows :
  forall (b : B) (before new after : trace),
    Q b new -> Q b (before ++ new ++ after).

Lemma ensures_fail (e : error) : ensures Q (fail e).
Proof. intros t b t' H. discriminate H. Qed.

Lemma ensures_defer (ev : event) (m : M B) :
  ensures Q m -> ensures Q (defer ev m).
Proof.
  intros H t b t'. unfold defer. destruct (m t) as [r t1] eqn:Hm.
  intros [= -> <-]. destruct (H _ _ _ Hm) as (new & -> & HQ).
  exists (new ++ [ev]). split; [symmetry; apply app_assoc|].
  apply (Q_grows b [] new [ev]), HQ.
Qed.

Lemma ensures_bind (m : M A) (k : A -> M B) :
  emits (fun _ => True) m -> (forall a : A, ensures Q (k a)) ->
  ensures Q (m ≫= k).
Proof.
  intros Hm Hk t b t'. unfold mbind, M_bind.
  destruct (Hm t) as (new & Hnew & _).
  destruct (m t) as [[a|e] t1]; [|discriminate]. cbn in Hnew. subst t1.
  intros H. destruct (Hk _ _ _ _ H) as (new' & -> & HQ).
  exists (new ++ new'). split; [symmetry; apply app_assoc|].
  rewrite <- (app_nil_r new'). apply Q_grows, HQ.
Qed.

End Ensures.

Ltac emits_any :=
  repeat first
    [ apply emits_pure
    | apply emits_ret
    | match goal with
      | |- emits _ (tarFiles _ _ ?files) =>
          induction files; cbn [tarFiles]
      | |- emits _ (zipFiles _ _ ?files) =>
          induction files; cbn [zipFiles]
      end
    | assumption
    | emits_step ].

Lemma createTarArchive_emits (E : Env) (files : list string) (output : writer) :
  emits (fun _ => True) (createTarArchive E files output).
Proof. unfold createTarArchive. emits_any. Qed.

Lemma createZipArchive_emits (E : Env) (files : list string) (output : writer) :
  emits (fun _ => True) (createZipArchive E files output).
Proof. unfold createZipArchive. emits_any. Qed.

Lemma completed_grows (target : string) (newArtifact a : Artifact)
    (before new after : trace) :
  completed target newArtifact a new ->
  completed target newArtifact a (before ++ new ++ after).
Proof.
  intros [-> H]. split; [reflexivity|].
  apply in_or_app. right. apply in_or_app. left. exact H.
Qed.

Ltac ensures_step target newArtifact :=
  match goal with
  | |- ensures _ (_ ≫= _) =>
      apply ensures_bind;
      [apply (completed_grows target newArtifact)
      | unfold makeBGZFWriter, makeBZIP2Writer, makeLZ4Writer, makeXZWriter,
          makePgzipWriter;
        emits_any;
        first [apply createTarArchive_emits | apply createZipArchive_emits]
      | intros ?]
  | |- ensures _ (defer _ _) =>
      apply ensures_defer; [apply (completed_grows target newArtifact)|]
  | |- ensures _ (fail _) => apply ensures_fail
  | |- ensures _ (if ?b then _ else _) => destruct b
  | |- ensures _ (let _ := _ in _) => cbv zeta
  end.

Lemma writeArchive_completed (E : Env) (p : Config) (artifact : SourceArtifact)
    (target : string) (newArtifact : Artifact) (output : writer) :
  ensures (completed target newArtifact)
    (writeArchive E p artifact target newArtifact output).
Proof.
  assert (Hdone : ensures (completed target newArtifact)
            (emit (Say (Sprintf "Archive %s completed" [Str target]));;
             mret newArtifact)).
  { intros t a t' [= <- <-]. eexists. split; [reflexivity|].
    split; [reflexivity | left; reflexivity]. }
  unfold writeArchive. cbv zeta.
  repeat first [exact Hdone | ensures_step target newArtifact].
Qed.

Lemma withOutput_completed (E : Env) (p : Config) (artifact : SourceArtifact)
    (target : string) (newArtifact : Artifact) (outputFile : writer) :
  ensures (completed target newArtifact)
    (withOutput E p target outputFile
       (writeArchive E p artifact target newArtifact)).
Proof.
  unfold withOutput, withWriter.
  repeat first [apply writeArchive_completed | ensures_step target newArtifact].
Qed.

(** X14: when [PostProcess] succeeds, the artifact it returns holds the
    output path as rendered; the run has created the directory of that path
    and the file, in this order and before anything else but printing the
    path, has reported the completion, and has closed the output file last.
    With no archive to build, the artifact given held exactly one file. *)
Theorem PostProcess_ok (E : Env) (p : Config) (artifact : SourceArtifact)
    (t t' : trace) (a : Artifact) :
  PostProcess E p artifact t = (Ok a, t') ->
  exists (target : string) (body : trace),
    interpolate_Render E (OutputPath p) (generatedData p artifact) = Ok target /\
    a = mkArtifact target /\
    t' = t ++ [Println target; MkdirAll (filepath_Dir E target) 493; Create target]
           ++ body ++ [Close (File target)] /\
    In (Say (Sprintf "Archive %s completed" [Str target])) body /\
    (Archive p <> "tar" -> Archive p <> "zip" -> length (Files artifact) = 1%nat).
Proof.
  intros H.
  assert (Hone : Archive p <> "tar" -> Archive p <> "zip" ->
                 length (Files artifact) = 1%nat).
  { intros Htar Hzip.
    destruct (Nat.eq_dec (length (Files artifact)) 1%nat) as [Hlen|Hlen]; [exact Hlen|].
    destruct (PostProcess_mismatch E p artifact t Htar Hzip Hlen)
      as (err & new & Hrun & _).
    rewrite Hrun in H. discriminate H. }
  unfold PostProcess, mbind, M_bind, orElse, emit, call, defer in H.
  destruct (interpolate_Render E (OutputPath p) (generatedData p artifact))
    as [target|err0] eqn:Hrender; [|discriminate H].
  destruct (os_MkdirAll E _ _); [discriminate H|].
  destruct (os_Create E _ _); [discriminate H|].
  destruct (withOutput E p target (File target) _ _) as [r t1] eqn:Hout.
  injection H as -> <-.
  apply withOutput_completed in Hout as (body & -> & -> & Hsay).
  exists target, body. repeat split; try assumption.
  rewrite <- !app_assoc. reflexivity.
Qed.

Lemma PostProcess_ok_witness :
  exists (target : string) (body : trace),
    fst (PostProcess sampleEnv (newConfig "out" "") (mkSource ["a"] None) [])
    = Ok (mkArtifact target) /\
    In (Say (Sprintf "Archive %s completed" [Str target])) body.
Proof.
  destruct (PostProcess_ok sampleEnv (newConfig "out" "") (mkSource ["a"] None) []
              (snd (PostProcess sampleEnv (newConfig "out" "")
                      (mkSource ["a"] None) []))
              (mkArtifact "out"))
    as (target & body & _ & Ha & _ & Hsay & _).
  - reflexivity.
  - exists target, body. split; [|exact Hsay]. rewrite <- Ha. reflexivity.
Defined.

(** ** Levels the codecs refuse or accept *)

(** X15: when the gzip codec of the configured algorithm (pgzip or bgzf)
    refuses the stored level, [PostProcess] fails with the message "error
    creating <algorithm> writer: Invalid compression level. Expected an
    integer from -1 to 9.", whatever the codec said; by then the output file
    has been created, and it is closed and left behind; no input is read. *)
Theorem gzip_level_rejected (E : Env) (p : Config) (artifact : SourceArtifact)
    (t : trace) (target : string) :
  interpolate_Render E (OutputPath p) (generatedData p artifact) = Ok target ->
  (forall t' : trace, os_MkdirAll E t' (filepath_Dir E target) = None) ->
  (forall t' : trace, os_Create E t' target = None) ->
  (Algorithm p = "pgzip" /\
   (forall t' : trace,
      pgzip_NewWriterLevel E t' (File target) (CompressionLevel p) <> None)) \/
  (Algorithm p = "bgzf" /\
   (forall t' : trace,
      bgzf_NewWriterLevel E t' (File target) (CompressionLevel p) (GOMAXPROCS E)
      <> None)) ->
  exists message : string,
    PostProcess E p artifact t
    = (Err (Errorf errTmpl
              [Str (Algorithm p);
               Str "Invalid compression level. Expected an integer from -1 to 9."]),
       t ++ [Println target; MkdirAll (filepath_Dir E target) 493; Create target;
             Say message; Close (File target)]).
Proof.
  intros Hrender Hmkdir Hcreate Hcodec.
  unfold PostProcess, mbind, M_bind, orElse, emit, call, defer.
  rewrite Hrender, Hmkdir, Hcreate. unfold withOutput.
  destruct Hcodec as [[Halg Hrej] | [Halg Hrej]]; rewrite Halg; cbn [String.eqb Ascii.eqb Bool.eqb];
    unfold withWriter, makePgzipWriter, makeBGZFWriter, mbind, M_bind, orElse,
      emit, call.
  - match goal with
    | |- context [pgzip_NewWriterLevel E ?tr _ _] =>
        destruct (pgzip_NewWriterLevel E tr (File target) (CompressionLevel p))
          eqn:Hlib; [|contradiction (Hrej _ Hlib)]
    end.
    eexists. rewrite <- !app_assoc, ?Halg. reflexivity.
  - match goal with
    | |- context [bgzf_NewWriterLevel E ?tr _ _ _] =>
        destruct (bgzf_NewWriterLevel E tr (File target) (CompressionLevel p)
                    (GOMAXPROCS E))
          eqn:Hlib; [|contradiction (Hrej _ Hlib)]
    end.
    eexists. rewrite <- !app_assoc, ?Halg. reflexivity.
Qed.

Lemma gzip_level_rejected_witness :
  exists message : string,
    run sampleEnv (decodedAs "out.gz" "" (-7)) (mkSource ["disk.img"] None) []
    = (Err (Errorf errTmpl
              [Str "pgzip";
               Str "Invalid compression level. Expected an integer from -1 to 9."]),
       [Println "out.gz"; MkdirAll "." 493; Create "out.gz"; Say message;
        Close (File "out.gz")]).
Proof.
  apply (gzip_level_rejected sampleEnv
           (fst (Configure sampleEnv (decodedAs "out.gz" "" (-7))))
           (mkSource ["disk.img"] None) [] "out.gz").
  - reflexivity.
  - reflexivity.
  - reflexivity.
  - left. split; [reflexivity | discriminate].
Defined.

(** X16: the levels [Configure] stores are levels the codecs take.  With a
    bzip2 library that accepts the levels 1 to 9, [makeBZIP2Writer] cannot
    fail on the stored level, whatever the caller asked for; with gzip
    libraries that accept the levels -1 to 9, [makePgzipWriter] and
    [makeBGZFWriter] cannot fail on it unless the caller asked for a level
    below -1; [makeLZ4Writer] never fails and sets a header level between 0
    and 9. *)
Theorem stored_levels_accepted (E : Env) (config p : Config) (output : writer)
    (t : trace) :
  Configure E (config, None) = (p, None) ->
  ((forall t' w l, 1 <= l <= 9 -> bzip2_NewWriter E t' w l = None) ->
   exists l : Z,
     1 <= l <= 9 /\
     makeBZIP2Writer E output (CompressionLevel p) t
     = (Ok (Bzip2Writer output l), t ++ [NewWriter (Bzip2Writer output l)])) /\
  ((forall t' w l, -1 <= l <= 9 -> pgzip_NewWriterLevel E t' w l = None) ->
   -1 <= CompressionLevel config ->
   exists w : writer,
     makePgzipWriter E output (CompressionLevel p) t = (Ok w, t ++ [NewWriter w])) /\
  ((forall t' w l wc, -1 <= l <= 9 -> bgzf_NewWriterLevel E t' w l wc = None) ->
   -1 <= CompressionLevel config ->
   exists w : writer,
     makeBGZFWriter E output (CompressionLevel p) t = (Ok w, t ++ [NewWriter w])) /\
  (exists l : Z,
     0 <= l <= 9 /\
     makeLZ4Writer E output (CompressionLevel p) t
     = (Ok (Lz4Writer output l), t ++ [NewWriter (Lz4Writer output l)])).
Proof.
  intros Hconf. rewrite Configure_unfold in Hconf. injection Hconf as Hp _.
  assert (Hlevel : CompressionLevel p = normalLevel (CompressionLevel config))
    by (rewrite <- Hp; reflexivity).
  destruct (normalLevel_cases (CompressionLevel config)) as (H1 & H2 & H3 & H4).
  assert (Hmax : CompressionLevel p <= 9).
  { rewrite Hlevel.
    destruct (Z_lt_le_dec 9 (CompressionLevel config)); [rewrite H1; lia|].
    destruct (Z_lt_le_dec (CompressionLevel config) (-1)); [rewrite H4; lia|].
    destruct (Z_lt_le_dec (CompressionLevel config) 1); [rewrite H2; lia|].
    rewrite H3; lia. }
  assert (Hmin : -1 <= CompressionLevel config -> -1 <= CompressionLevel p).
  { intros Hge. rewrite Hlevel.
    destruct (Z_lt_le_dec 9 (CompressionLevel config)); [rewrite H1; lia|].
    destruct (Z_lt_le_dec (CompressionLevel config) 1); [rewrite H2; lia|].
    rewrite H3; lia. }
  split; [|split; [|split]].
  - intros Hlib. exists (bzipCFG_Level (CompressionLevel p)).
    assert (Hb : 1 <= bzipCFG_Level (CompressionLevel p) <= 9)
      by (unfold bzipCFG_Level; destruct (Z.gtb_spec (CompressionLevel p) 0); lia).
    split; [exact Hb|].
    rewrite makeBZIP2Writer_unfold, Hlib by exact Hb. reflexivity.
  - intros Hlib Hge. eexists.
    unfold makePgzipWriter, mbind, M_bind, orElse, call.
    rewrite Hlib by (split; [apply Hmin, Hge | exact Hmax]). reflexivity.
  - intros Hlib Hge. eexists.
    unfold makeBGZFWriter, mbind, M_bind, orElse, call.
    rewrite Hlib by (split; [apply Hmin, Hge | exact Hmax]). reflexivity.
  - exists (if CompressionLevel p >? 0 then CompressionLevel p else 0).
    split; [destruct (Z.gtb_spec (CompressionLevel p) 0); lia | reflexivity].
Qed.

Lemma stored_levels_accepted_witness :
  exists l : Z,
    1 <= l <= 9 /\
    makeBZIP2Writer sampleEnv (File "out.bzip2")
      (CompressionLevel (fst (Configure sampleEnv (decodedAs "out.bzip2" "" 40)))) []
    = (Ok (Bzip2Writer (File "out.bzip2") l),
       [] ++ [NewWriter (Bzip2Writer (File "out.bzip2") l)]).
Proof.
  apply (proj1 (stored_levels_accepted sampleEnv
                  (setCompressionLevel 40 (newConfig "out.bzip2" ""))
                  (fst (Configure sampleEnv (decodedAs "out.bzip2" "" 40)))
                  (File "out.bzip2") [] eq_refl)).
  intros t' w l Hl. cbn.
  destruct (Z.ltb_spec l 1); [lia|]. destruct (Z.gtb_spec l 9); [lia|].
  reflexivity.
Defined.

(** ** One file and no archive *)

Lemma writeArchive_single (E : Env) (p : Config) (artifact : SourceArtifact)
    (target f : string) (newArtifact a : Artifact) (output : writer)
    (t t' : trace) :
  Archive p <> "tar" -> Archive p <> "zip" -> Files artifact = [f] ->
  writeArchive E p artifact target newArtifact output t = (Ok a, t') ->
  a = newArtifact /\ t' = t ++ singleCopy p target f output.
Proof.
  intros Htar Hzip Hfiles H. unfold writeArchive in H.
  apply String.eqb_neq in Htar, Hzip. rewrite Htar, Hzip, Hfiles in H.
  cbn [length Nat.eqb negb lookup list_lookup default] in H.
  unfold defer in H. run_calls H; try discriminate H.
  injection H as <- <-. split; [reflexivity|].
  unfold singleCopy, compressionName. rewrite <- !app_assoc. reflexivity.
Qed.

(** X17: with no archive to build and one file, a successful [PostProcess]
    copies that file once, as it is, into the output: straight into the
    output file when the algorithm is none of the five, into the compression
    writer built over the output file otherwise; nothing else is written, and
    the file, the writer and the output file are closed in this order. *)
Theorem single_file_copy (E : Env) (p : Config) (artifact : SourceArtifact)
    (f : string) (t t' : trace) (a : Artifact) :
  Archive p <> "tar" -> Archive p <> "zip" -> Files artifact = [f] ->
  PostProcess E p artifact t = (Ok a, t') ->
  exists (target : string) (output : writer) (before after : trace),
    a = mkArtifact target /\
    t' = t ++ [Println target; MkdirAll (filepath_Dir E target) 493; Create target]
           ++ before ++ singleCopy p target f output ++ after
           ++ [Close (File target)] /\
    ((knownAlgorithm p = false /\ output = File target /\
      before = [] /\ after = []) \/
     (knownAlgorithm p = true /\
      exists message : string,
        before = [Say message; NewWriter output] /\ after = [Close output])).
Proof.
  intros Htar Hzip Hfiles H.
  unfold PostProcess, mbind, M_bind, orElse, emit, call, defer in H.
  destruct (interpolate_Render E (OutputPath p) (generatedData p artifact))
    as [target|err0]; [|discriminate H].
  destruct (os_MkdirAll E _ _); [discriminate H|].
  destruct (os_Create E _ _); [discriminate H|].
  destruct (withOutput E p target (File target) _ _) as [r t1] eqn:Hout.
  injection H as -> <-.
  exists target. unfold withOutput, knownAlgorithm in *.
  destruct (String.eqb (Algorithm p) "bgzf");
    [|destruct (String.eqb (Algorithm p) "bzip2");
      [|destruct (String.eqb (Algorithm p) "lz4");
        [|destruct (String.eqb (Algorithm p) "xz");
          [|destruct (String.eqb (Algorithm p) "pgzip")]]]].
  6: { apply (writeArchive_single E p artifact target f) in Hout
         as [-> ->]; try assumption.
       exists (File target), [], []. split; [reflexivity|].
       split; [now rewrite <- !app_assoc | left; auto]. }
  all: unfold withWriter, makeBGZFWriter, makeBZIP2Writer, makeLZ4Writer,
         makeXZWriter, makePgzipWriter, mbind, M_bind, mret, M_ret, emit,
         orElse, call, defer in Hout.
  all: repeat match type of Hout with
       | context [match ?o with Some _ => _ | None => _ end] => destruct o
       end; try discriminate Hout.
  all: match type of Hout with
       | context [writeArchive ?e ?q ?ar ?tg ?na ?w ?tr] =>
           destruct (writeArchive e q ar tg na w tr) as [r1 t2] eqn:Hwrite
       end.
  all: injection Hout as -> <-.
  all: apply (writeArchive_single E p artifact target f) in Hwrite
         as [-> ->]; try assumption.
  all: eexists _, [_; _], [_]; split; [reflexivity|];
       split; [now rewrite <- !app_assoc | right; split; [reflexivity|]];
       eexists; split; reflexivity.
Qed.

Lemma single_file_copy_witness :
  snd (PostProcess sampleEnv (setArchive "" (newConfig "disk.raw" ""))
         (mkSource ["disk.img"] None) [])
  = [Println "disk.raw"; MkdirAll "." 493; Create "disk.raw";
     Say "Archiving disk.img with no compression"; Open "disk.img";
     Copy (File "disk.raw") "disk.img"; Say "Archive disk.raw completed";
     CloseFile "disk.img"; Close (File "disk.raw")].
Proof.
  destruct (single_file_copy sampleEnv (setArchive "" (newConfig "disk.raw" ""))
              (mkSource ["disk.img"] None) "disk.img" []
              (snd (PostProcess sampleEnv (setArchive "" (newConfig "disk.raw" ""))
                      (mkSource ["disk.img"] None) []))
              (mkArtifact "disk.raw"))
    as (target & output & before & after & _ & Htrace & _).
  - discriminate.
  - discriminate.
  - reflexivity.
  - reflexivity.
  - reflexivity.
Defined.

(** ** Archives of any number of files *)

Ltac archive_formatted :=
  intros; eexists _, _; split; [reflexivity|];
  unfold archiveFormats, setupFormats, errTmpl; cbn; auto 12.

(** X18: when there is an archive to build, the number of files is not
    looked at: [PostProcess] never returns the count error, only an error of
    its first steps or the error of the archive writer under "Error creating
    tar: " or "Error creating zip: "; and an archive of no file at all is
    written and closed without any error. *)
Theorem archive_takes_any_count (E : Env) (p : Config) (artifact : SourceArtifact)
    (t : trace) :
  Archive p = "tar" \/ Archive p = "zip" ->
  (forall e : error,
     fst (PostProcess E p artifact t) = Err e ->
     formatted archiveFormats e /\ e <> wrongInputCount (Files artifact)) /\
  (forall output : writer,
     createTarArchive E [] output t
     = (Ok (), t ++ [NewWriter (TarWriter output); Close (TarWriter output)]) /\
     createZipArchive E [] output t
     = (Ok (), t ++ [NewWriter (ZipWriter output); Close (ZipWriter output)])).
Proof.
  intros Harchive. split.
  - intros e H.
    assert (Hfmt : formatted archiveFormats e).
    { revert t e H. change (raises (formatted archiveFormats)
                              (PostProcess E p artifact)).
      assert (Hwrite : forall target na output,
                raises (formatted archiveFormats)
                  (writeArchive E p artifact target na output)).
      { intros target na output. unfold writeArchive. cbv zeta.
        destruct Harchive as [-> | ->]; cbn [String.eqb Ascii.eqb Bool.eqb];
          repeat first
            [ apply raises_orElse; archive_formatted
            | raises_step ]. }
      unfold PostProcess, withOutput, withWriter.
      repeat first
        [ apply Hwrite
        | apply raises_orElse; archive_formatted
        | raises_step ]. }
    split; [exact Hfmt|].
    destruct Hfmt as (format & args & -> & Hin). unfold wrongInputCount.
    intros [= -> _].
    unfold archiveFormats, setupFormats, errTmpl in Hin. cbn in Hin.
    repeat (destruct Hin as [Hin | Hin]; [discriminate Hin|]). exact Hin.
  - intros output. split; unfold createTarArchive, createZipArchive, defer,
      mbind, M_bind, emit; cbn; rewrite <- app_assoc; reflexivity.
Qed.

Lemma archive_takes_any_count_witness :
  createTarArchive sampleEnv [] (File "out.tar") []
  = (Ok (), [] ++ [NewWriter (TarWriter (File "out.tar"));
                   Close (TarWriter (File "out.tar"))]).
Proof.
  apply (proj2 (archive_takes_any_count sampleEnv
                  (detectFromFilename (newConfig "out.tar" ""))
                  (mkSource [] None) [] ltac:(left; reflexivity))
           (File "out.tar")).
Defined.

(** ** The data the output path is rendered with *)

(** X19: the output path is rendered with the name and the type of the build
    under the keys "BuildName" and "BuilderType", whatever the artifact's own
    generated data holds under these keys; every other key keeps the value the
    artifact gave it, and is absent when the artifact has no generated
    data. *)
Theorem generatedData_lookup (p : Config) (artifact : SourceArtifact) :
  generatedData p artifact !! "BuildName" = Some (PackerBuildName p) /\
  generatedData p artifact !! "BuilderType" = Some (PackerBuilderType p) /\
  (forall key : string,
     key <> "BuildName" -> key <> "BuilderType" ->
     generatedData p artifact !! key
     = match generated_data artifact with
       | Some data => data !! key
       | None => None
       end).
Proof.
  unfold generatedData. cbv zeta. split; [|split].
  - rewrite lookup_insert_ne by discriminate. apply lookup_insert_eq.
  - apply lookup_insert_eq.
  - intros key Hname Htype.
    rewrite !lookup_insert_ne by congruence.
    destruct (generated_data artifact); [reflexivity | apply lookup_empty].
Qed.

Lemma generatedData_lookup_witness :
  generatedData (mkConfig "web" "qemu" "out" "" 0 "" "")
    (mkSource [] (Some {[ "BuildName" := "stale"; "ID" := "42" ]}))
  !! "ID"
  = Some "42".
Proof.
  rewrite (proj2 (proj2 (generatedData_lookup
                           (mkConfig "web" "qemu" "out" "" 0 "" "")
                           (mkSource [] (Some {[ "BuildName" := "stale";
                                                 "ID" := "42" ]}))))
             "ID") by discriminate.
  reflexivity.
Defined.

(** ** A tar archive through the compression writer *)

Lemma writeArchive_tar (E : Env) (p : Config) (artifact : SourceArtifact)
    (target : string) (newArtifact a : Artifact) (output : writer)
    (t t' : trace) :
  Archive p = "tar" ->
  writeArchive E p artifact target newArtifact output t = (Ok a, t') ->
  a = newArtifact /\
  t' = t ++ [Say (Sprintf "Tarring %s with %s" [Str target; Str (compressionName p)]);
             NewWriter (TarWriter output)]
         ++ concat (map (tarEntry (TarWriter output)) (Files artifact))
         ++ map CloseFile (rev (Files artifact))
         ++ [Close (TarWriter output);
             Say (Sprintf "Archive %s completed" [Str target])].
Proof.
  intros Htar H. unfold writeArchive in H. rewrite Htar in H.
  cbn [String.eqb Ascii.eqb Bool.eqb] in H.
  unfold mbind, M_bind, mret, M_ret, orElse, emit in H.
  destruct (createTarArchive E (Files artifact) output _) as [[[]|e] t1] eqn:Htar';
    [|discriminate H].
  injection H as <- <-. split; [reflexivity|].
  apply createTarArchive_ok in Htar'. subst t1.
  unfold compressionName. rewrite <- !app_assoc. reflexivity.
Qed.

(** X20: a successful run that builds a tar archive writes the archive into
    the compression writer when the algorithm is one of the five, and into
    the output file otherwise: the tar writer is built over that output after
    it, all files go through the tar writer in the order given, and the tar
    writer is closed before the compression writer, itself closed before the
    output file. *)
Theorem tar_run (E : Env) (p : Config) (artifact : SourceArtifact)
    (t t' : trace) (a : Artifact) :
  Archive p = "tar" ->
  PostProcess E p artifact t = (Ok a, t') ->
  exists (target : string) (output : writer) (before after : trace),
    a = mkArtifact target /\
    t' = t ++ [Println target; MkdirAll (filepath_Dir E target) 493; Create target]
           ++ before
           ++ [Say (Sprintf "Tarring %s with %s"
                      [Str target; Str (compressionName p)]);
               NewWriter (TarWriter output)]
           ++ concat (map (tarEntry (TarWriter output)) (Files artifact))
           ++ map CloseFile (rev (Files artifact))
           ++ [Close (TarWriter output);
               Say (Sprintf "Archive %s completed" [Str target])]
           ++ after ++ [Close (File target)] /\
    ((knownAlgorithm p = false /\ output = File target /\
      before = [] /\ after = []) \/
     (knownAlgorithm p = true /\
      exists message : string,
        before = [Say message; NewWriter output] /\ after = [Close output])).
Proof.
  intros Htar H.
  unfold PostProcess, mbind, M_bind, orElse, emit, call, defer in H.
  destruct (interpolate_Render E (OutputPath p) (generatedData p artifact))
    as [target|err0]; [|discriminate H].
  destruct (os_MkdirAll E _ _); [discriminate H|].
  destruct (os_Create E _ _); [discriminate H|].
  destruct (withOutput E p target (File target) _ _) as [r t1] eqn:Hout.
  injection H as -> <-.
  exists target. unfold withOutput, knownAlgorithm in *.
  destruct (String.eqb (Algorithm p) "bgzf");
    [|destruct (String.eqb (Algorithm p) "bzip2");
      [|destruct (String.eqb (Algorithm p) "lz4");
        [|destruct (String.eqb (Algorithm p) "xz");
          [|destruct (String.eqb (Algorithm p) "pgzip")]]]].
  6: { apply (writeArchive_tar E p artifact target) in Hout as [-> ->];
         [|assumption].
       exists (File target), [], []. split; [reflexivity|].
       split; [now rewrite <- !app_assoc | left; auto]. }
  all: unfold withWriter, makeBGZFWriter, makeBZIP2Writer, makeLZ4Writer,
         makeXZWriter, makePgzipWriter, mbind, M_bind, mret, M_ret, emit,
         orElse, call, defer in Hout.
  all: repeat match type of Hout with
       | context [match ?o with Some _ => _ | None => _ end] => destruct o
       end; try discriminate Hout.
  all: match type of Hout with
       | context [writeArchive ?e ?q ?ar ?tg ?na ?w ?tr] =>
           destruct (writeArchive e q ar tg na w tr) as [r1 t2] eqn:Hwrite
       end.
  all: injection Hout as -> <-.
  all: apply (writeArchive_tar E p artifact target) in Hwrite as [-> ->];
         [|assumption].
  all: eexists _, [_; _], [_]; split; [reflexivity|];
       split; [now rewrite <- !app_assoc | right; split; [reflexivity|]];
       eexists; split; reflexivity.
Qed.

Lemma tar_run_witness :
  snd (run sampleEnv (decodedAs "out.tar.xz" "" 0) (mkSource ["a"; "b"] None) [])
  = [Println "out.tar.xz"; MkdirAll "." 493; Create "out.tar.xz";
     Say "Using xz compression with 1 core for out.tar.xz (library does not support MT)";
     NewWriter (XzWriter (File "out.tar.xz"));
     Say "Tarring out.tar.xz with xz";
     NewWriter (TarWriter (XzWriter (File "out.tar.xz")));
     Open "a"; Stat "a";
     WriteHeader (TarWriter (XzWriter (File "out.tar.xz"))) "a";
     Copy (TarWriter (XzWriter (File "out.tar.xz"))) "a";
     Open "b"; Stat "b";
     WriteHeader (TarWriter (XzWriter (File "out.tar.xz"))) "b";
     Copy (TarWriter (XzWriter (File "out.tar.xz"))) "b";
     CloseFile "b"; CloseFile "a";
     Close (TarWriter (XzWriter (File "out.tar.xz")));
     Say "Archive out.tar.xz completed";
     Close (XzWriter (File "out.tar.xz")); Close (File "out.tar.xz")].
Proof.
  destruct (tar_run sampleEnv
              (fst (Configure sampleEnv (decodedAs "out.tar.xz" "" 0)))
              (mkSource ["a"; "b"] None) []
              (snd (run sampleEnv (decodedAs "out.tar.xz" "" 0)
                      (mkSource ["a"; "b"] None) []))
              (mkArtifact "out.tar.xz"))
    as (target & output & before & after & _ & Htrace & _).
  - reflexivity.
  - reflexivity.
  - reflexivity.
Defined.
